(** * Food freshness detector: model of the inference backend

    A shallow embedding of the Python backend
    (preprocessing.py, pipeline.py, loader.py, routers/predict.py)
    and the verification of its specification.

    Conventions of the model.
    - Python floats (confidences, box coordinates, colour statistics) are
      rationals [Q]: the comparisons of the code are exact on them, and the
      arithmetic is the real-number reading of the binary64 arithmetic.
    - Python exceptions are values of [exn]; a computation that may raise
      has type [result A].
    - PIL, OpenCV, torch and ultralytics are external libraries: their
      operations are the fields of the interface [Imaging]. *)

From Stdlib Require Import ZArith QArith Qround Lqa Lia Ascii.
From stdpp Require Import base option list gmap sets strings pretty.

Local Open Scope Z_scope.

(** ** Exceptions and results *)

(** The exception classes the backend distinguishes in its [except]
    clauses.  A class stands for itself and its subclasses. *)
Inductive exn_class :=
  | RuntimeError
  | ValueError
  | IndexError
  | OSError
  | OtherException (name : string).

Inductive exn :=
  | PyExc (cls : exn_class) (msg : string)
  | HTTPException (status_code : Z) (detail : string).

(** [isinstance(exc, RuntimeError)] and [isinstance(exc, ValueError)]. *)
Definition is_RuntimeError (e : exn) : bool :=
  match e with PyExc RuntimeError _ => true | _ => false end.

Definition is_ValueError (e : exn) : bool :=
  match e with PyExc ValueError _ => true | _ => false end.

(** [str(exc)] *)
Definition exn_str (e : exn) : string :=
  match e with
  | PyExc _ msg => msg
  | HTTPException c d => pretty c +:+ ": " +:+ d
  end.

Inductive result (A : Type) :=
  | Ok (a : A)
  | Raise (e : exn).
Arguments Ok {A} a.
Arguments Raise {A} e.

#[global] Instance result_ret : MRet result := fun A a => Ok a.
#[global] Instance result_bind : MBind result := fun A B f m =>
  match m with Ok a => f a | Raise e => Raise e end.

Definition is_Ok {A} (r : result A) : bool :=
  match r with Ok _ => true | Raise _ => false end.

(** HTTP status codes used by the router. *)
Definition HTTP_400_BAD_REQUEST : Z := 400.
Definition HTTP_422_UNPROCESSABLE_ENTITY : Z := 422.
Definition HTTP_500_INTERNAL_SERVER_ERROR : Z := 500.

(** ** Python built-ins on numbers *)

(** [max(a, b)] returns [a] unless [b] is strictly larger; [min(a, b)]
    returns [a] unless [b] is strictly smaller. *)
Definition py_max (a b : Q) : Q := if Qlt_le_dec a b then b else a.
Definition py_min (a b : Q) : Q := if Qlt_le_dec b a then b else a.

(** [round(x)]: nearest integer, ties to the even one. *)
Definition py_round (q : Q) : Z :=
  let f := Qfloor q in
  match (q - inject_Z f ?= 1 # 2)%Q with
  | Lt => f
  | Gt => f + 1
  | Eq => if Z.even f then f else f + 1
  end.

(** [round(x, n)] for [n] decimals. *)
Definition py_round_n (q : Q) (n : nat) : Q :=
  (inject_Z (py_round (q * inject_Z (10 ^ Z.of_nat n))) / inject_Z (10 ^ Z.of_nat n))%Q.

(** ** Python built-ins on strings (ASCII) *)

Definition ascii_lower (c : Ascii.ascii) : Ascii.ascii :=
  let n := Ascii.nat_of_ascii c in
  if ((65 <=? n) && (n <=? 90))%nat then Ascii.ascii_of_nat (n + 32) else c.

(** [s.lower()] *)
Fixpoint lower (s : string) : string :=
  match s with
  | EmptyString => EmptyString
  | String c s' => String (ascii_lower c) (lower s')
  end.

(** [s.replace(" ", "_")] *)
Fixpoint replace_space (s : string) : string :=
  match s with
  | EmptyString => EmptyString
  | String c s' =>
      String (if Ascii.eqb c " "%char then "_"%char else c) (replace_space s')
  end.

(** [l[i]] on a Python list: negative indices count from the end, an index
    out of range raises [IndexError]. *)
Definition py_getitem {A} (l : list A) (i : Z) : result A :=
  let n := Z.of_nat (length l) in
  let j := if i <? 0 then i + n else i in
  if (j <? 0) || (n <=? j) then Raise (PyExc IndexError "list index out of range")
  else match l !! Z.to_nat j with
       | Some a => Ok a
       | None => Raise (PyExc IndexError "list index out of range")
       end.

(** [sorted(l)] on strings (insertion into a sorted list, by code points)
    and [sep.join(l)]. *)
Fixpoint insert_sorted (x : string) (l : list string) : list string :=
  match l with
  | [] => [x]
  | y :: l' => if String.leb x y then x :: l else y :: insert_sorted x l'
  end.

Definition sorted (l : list string) : list string :=
  foldr insert_sorted [] l.

Fixpoint join (sep : string) (l : list string) : string :=
  match l with
  | [] => ""
  | [x] => x
  | x :: l' => x +:+ sep +:+ join sep l'
  end.

(** An object reference: the identity of the object and its (immutable)
    contents. *)
Record ObjRef (A : Type) := mkRef { obj_id : nat; obj_val : A }.
Arguments mkRef {A} _ _.
Arguments obj_id {A} _.
Arguments obj_val {A} _.


(** ** config.py *)

(** [s.split(sep)] for a one-character separator: the pieces between the
    separators, empty pieces included. *)
Fixpoint split (sep : ascii) (s : string) : list string :=
  match s with
  | EmptyString => [EmptyString]
  | String c s' =>
      if Ascii.eqb c sep then EmptyString :: split sep s'
      else match split sep s' with
           | piece :: pieces => String c piece :: pieces
           | [] => [String c EmptyString]
           end
  end.

(** [c.isspace()] on ASCII: tab, line feed, vertical tab, form feed,
    carriage return, the four separators 28 to 31, and the space. *)
Definition is_space (c : ascii) : bool :=
  let n := nat_of_ascii c in
  ((9 <=? n) && (n <=? 13) || (28 <=? n) && (n <=? 32))%nat.

(** [s.lstrip()], [s.rstrip()] and [s.strip()]. *)
Fixpoint lstrip (s : string) : string :=
  match s with
  | EmptyString => EmptyString
  | String c s' => if is_space c then lstrip s' else s
  end.

Fixpoint rstrip (s : string) : string :=
  match s with
  | EmptyString => EmptyString
  | String c s' =>
      match rstrip s' with
      | EmptyString => if is_space c then EmptyString else String c EmptyString
      | rest => String c rest
      end
  end.

Definition strip (s : string) : string := rstrip (lstrip s).

(** Number of occurrences of a character, and the first and the last
    character of a string. *)
Fixpoint count_char (c : ascii) (s : string) : nat :=
  match s with
  | EmptyString => 0
  | String c' s' => (if Ascii.eqb c' c then 1 else 0) + count_char c s'
  end.

Definition first_char (s : string) : option ascii :=
  match s with EmptyString => None | String c _ => Some c end.

Fixpoint last_char (s : string) : option ascii :=
  match s with
  | EmptyString => None
  | String c EmptyString => Some c
  | String _ s' => last_char s'
  end.

(** No white space at either end. *)
Definition is_stripped (s : string) : Prop :=
  (∀ c, first_char s = Some c → is_space c = false)
  ∧ (∀ c, last_char s = Some c → is_space c = false).

(** The settings of config.py, with their defaults. *)
Record Settings := mkSettings {
  app_env : string;
  app_host : string;
  app_port : Z;
  app_reload : bool;
  yolo_weights_path : string;
  freshness_weights_path : string;
  settings_device : string;
  allowed_origins : string;
  detection_confidence : Q
}.

Definition default_settings : Settings :=
  mkSettings "development" "0.0.0.0" 8000 true
    "weights/yolov8n.pt" "weights/freshness_classifier.pt" "cpu"
    "http://localhost:3000" 0.25.

(** Settings that allow two origins, written with blanks around the second. *)
Definition two_origins_settings : Settings :=
  mkSettings "production" "0.0.0.0" 8000 false
    "weights/yolov8n.pt" "weights/freshness_classifier.pt" "cpu"
    "http://localhost:3000, https://app.example.com " 0.25.

(** [Settings.origins_list] *)
Definition origins_list (settings : Settings) : list string :=
  strip <$> split ","%char (allowed_origins settings).

(** ** External libraries *)

(** One detection of ultralytics: [int(box.cls[0])], [float(box.conf[0])]
    and [box.xyxy[0].tolist()]. *)
Record Box := mkBox { cls : Z; conf : Q; xyxy : Q * Q * Q * Q }.

(** One element of the list a YOLO call returns. *)
Record Results := mkResults { boxes : list Box }.

(** Conversion codes of [cv2.cvtColor]. *)
Inductive ColorCode :=
  | COLOR_RGB2BGR | COLOR_BGR2RGB | COLOR_BGR2LAB | COLOR_LAB2BGR | COLOR_BGR2HSV.

(** The operations of PIL, OpenCV/NumPy, torch and ultralytics the backend
    calls.  Any of them may raise. *)
Class Imaging := {
  Image : Type;
  Array : Type;
  Tensor : Type;
  Device : Type;
  YOLO : Type;
  Classifier : Type;
  StateDict : Type;
  (* PIL *)
  PIL_open : list Byte.byte → result Image;
  PIL_convert : Image → string → result Image;
  PIL_mode : Image → string;
  PIL_size : Image → Z * Z;
  PIL_crop : Image → Q * Q * Q * Q → result Image;
  PIL_fromarray : Array → Image;
  PIL_convert_mode : ∀ img m img', PIL_convert img m = Ok img' → PIL_mode img' = m;
  (* OpenCV and NumPy *)
  np_array : Image → Array;
  cv2_cvtColor : Array → ColorCode → result Array;
  clahe_apply_channel0 : Q → Z * Z → Array → result Array;
  np_mean_channel : Array → nat → Q;
  (* torch and torchvision *)
  FRESHNESS_TRANSFORM : Image → result Tensor;
  unsqueeze : Tensor → Z → Tensor;
  tensor_to : Tensor → Device → result Tensor;
  predict_module : Classifier → Tensor → result (Z * Q);
  torch_device : string → result Device;
  str_Path : string → string;
  str_device : Device → string;
  FreshnessNet_new : result Classifier;
  load_state_dict : Classifier → StateDict → result Classifier;
  module_to : Classifier → Device → result Classifier;
  module_eval : Classifier → Classifier;
  (* ultralytics *)
  yolo_call : YOLO → Image → result (list Results);
  yolo_names : YOLO → gmap Z string
}.

(** Number of bands of a PIL mode ([len(img.getbands())]). *)
Definition bands (m : string) : nat :=
  if decide (m = "RGB") then 3
  else if decide (m = "YCbCr") then 3
  else if decide (m = "LAB") then 3
  else if decide (m = "HSV") then 3
  else if decide (m = "RGBA") then 4
  else if decide (m = "CMYK") then 4
  else if decide (m = "LA") then 2
  else 1.

(** Pillow's [Image.crop] applies [round] to each bound of the box it is
    given: the pixel rectangle of a float box. *)
Definition pixel_box (r : Q * Q * Q * Q) : Z * Z * Z * Z :=
  let '(a, b, c, d) := r in (py_round a, py_round b, py_round c, py_round d).

(** A pixel rectangle is a valid crop of a [w] x [h] image: inside the image,
    at least one pixel wide and high. *)
Definition valid_crop (w h : Z) (p : Z * Z * Z * Z) : Prop :=
  let '(a, b, c, d) := p in
  0 <= a /\ a + 1 <= c /\ c <= w /\ 0 <= b /\ b + 1 <= d /\ d <= h.

Definition Qltb (a b : Q) : bool := if Qlt_le_dec a b then true else false.

(** [random.uniform(a, b)] is [a + (b - a) * random()], with [random()]
    in [0, 1). *)
Definition uniform (a b rnd : Q) : Q := (a + (b - a) * rnd)%Q.

Section Backend.
Context `{Imaging}.

(** ** preprocessing.py *)

Definition bytes_to_pil (image_bytes : list Byte.byte) : result Image :=
  match img ← PIL_open image_bytes; PIL_convert img "RGB" with
  | Ok img => Ok img
  | Raise exc => Raise (PyExc ValueError ("Cannot decode image: " +:+ exn_str exc))
  end.

Definition pil_to_cv2 (pil_image : Image) : result Array :=
  cv2_cvtColor (np_array pil_image) COLOR_RGB2BGR.

Definition cv2_to_pil (bgr_array : Array) : result Image :=
  rgb ← cv2_cvtColor bgr_array COLOR_BGR2RGB; mret (PIL_fromarray rgb).

(** The rectangle [crop_bbox] hands to [Image.crop] (its lines before the
    final call), for an image of size [w] x [h]. *)
Definition crop_bbox_rect (w h : Z) (box : Q * Q * Q * Q) (padding : Q)
  : Q * Q * Q * Q :=
  let '(x1, y1, x2, y2) := box in
  let pad_x := ((x2 - x1) * padding)%Q in
  let pad_y := ((y2 - y1) * padding)%Q in
  let x1 := py_max 0 (x1 - pad_x) in
  let y1 := py_max 0 (y1 - pad_y) in
  let x2 := py_min (inject_Z w) (x2 + pad_x) in
  let y2 := py_min (inject_Z h) (y2 + pad_y) in
  (x1, y1, x2, y2).

Definition crop_bbox (pil_image : Image) (box : Q * Q * Q * Q) (padding : Q)
  : result Image :=
  let '(w, h) := PIL_size pil_image in
  PIL_crop pil_image (crop_bbox_rect w h box padding).

Definition to_freshness_tensor (pil_image : Image) : result Tensor :=
  t ← FRESHNESS_TRANSFORM pil_image; mret (unsqueeze t 0).

Definition enhance_contrast (bgr_array : Array) : result Array :=
  lab ← cv2_cvtColor bgr_array COLOR_BGR2LAB;
  lab' ← clahe_apply_channel0 2.0 (8, 8) lab;
  cv2_cvtColor lab' COLOR_LAB2BGR.

(** ** loader.py: the bundle *)

Record ModelBundle := mkBundle {
  yolo : YOLO;
  freshness_classifier : option Classifier;
  device : Device;
  food_labels : list string;
  freshness_labels : list string
}.

Definition FOOD_LABELS : list string :=
  [ "apple"; "banana"; "orange"; "strawberry"; "grape";
    "mango"; "pineapple"; "watermelon"; "lemon"; "cherry";
    "carrot"; "broccoli"; "tomato"; "cucumber"; "lettuce";
    "potato"; "onion"; "pepper"; "avocado"; "corn";
    "bread"; "cake"; "sandwich"; "pizza"; "hotdog";
    "sushi"; "steak"; "chicken"; "fish"; "egg" ].

(** ** pipeline.py *)

Definition FRESHNESS_LABELS : list string := ["fresh"; "semi-fresh"; "spoiled"].

Definition COCO_FOOD_CLASSES : gset Z :=
  list_to_set [46; 47; 48; 49; 50; 51; 52; 53; 54; 55; 56; 57; 58; 59; 60; 61].

Record PredictionResult := mkResult {
  food : string;
  freshness : string;
  confidence : Q;
  detected : bool;
  bbox : option (Q * Q * Q * Q)
}.

(** The scoring rules of [_heuristic_freshness] on the two colour
    statistics; [rnd] is the value [random()] gives to [random.uniform]. *)
Definition heuristic_score (saturation value rnd : Q) : string * Q :=
  if Qltb 80 saturation && (Qltb 60 value && Qltb value 220) then
    ("fresh", py_round_n (0.75 + uniform 0.0 0.20 rnd) 2)
  else if Qltb 40 saturation then
    ("semi-fresh", py_round_n (0.55 + uniform 0.0 0.20 rnd) 2)
  else
    ("spoiled", py_round_n (0.60 + uniform 0.0 0.20 rnd) 2).

Definition _heuristic_freshness (crop : Image) (rnd : Q) : result (string * Q) :=
  bgr ← pil_to_cv2 crop;
  enhanced ← enhance_contrast bgr;
  hsv ← cv2_cvtColor enhanced COLOR_BGR2HSV;
  let saturation := np_mean_channel hsv 1 in
  let value := np_mean_channel hsv 2 in
  mret (heuristic_score saturation value rnd).

Definition _classify_freshness (bundle : ModelBundle) (crop : Image) (rnd : Q)
  : result (string * Q) :=
  match freshness_classifier bundle with
  | Some classifier =>
      t ← to_freshness_tensor crop;
      tensor ← tensor_to t (device bundle);
      '(idx, cnf) ← predict_module classifier tensor;
      label ← py_getitem (freshness_labels bundle) idx;
      mret (label, py_round_n cnf 4)
  | None => _heuristic_freshness crop rnd
  end.

(** The three loop variables of [run_inference]. *)
Record Best := mkBest {
  best_box : option (Q * Q * Q * Q);
  best_conf : Q;
  best_label : string
}.

Definition best_init : Best := mkBest None 0.0 "unknown".

(** One iteration of the loop over the detector's boxes. *)
Definition scan_box (bundle : ModelBundle) (best : Best) (box : Box) : Best :=
  let cls_id := cls box in
  let cnf := conf box in
  let name := default "food" (yolo_names (yolo bundle) !! cls_id) in
  if bool_decide (cls_id ∉ COCO_FOOD_CLASSES)
     && bool_decide (lower name ∉ (list_to_set (lower <$> food_labels bundle) : gset string))
  then best
  else if Qltb (best_conf best) cnf
       then mkBest (Some (xyxy box)) cnf (replace_space (lower name))
       else best.

Definition scan_results (bundle : ModelBundle) (results : list Results) : Best :=
  match results with
  | r0 :: _ =>
      if (0 <? length (boxes r0))%nat
      then fold_left (scan_box bundle) (boxes r0) best_init
      else best_init
  | [] => best_init
  end.

Definition not_detected : PredictionResult :=
  mkResult "unknown" "unknown" 0.0 false None.

Definition run_inference (image : Image) (bundle : ModelBundle) (rnd : Q)
  : result PredictionResult :=
  results ← yolo_call (yolo bundle) image;
  let best := scan_results bundle results in
  match best_box best with
  | None => mret not_detected
  | Some box =>
      if Qltb (best_conf best) 0.10 then mret not_detected
      else
        crop ← crop_bbox image box 0.05;
        '(freshness_label, freshness_conf) ← _classify_freshness bundle crop rnd;
        let combined_conf :=
          py_round_n (best_conf best * 0.4 + freshness_conf * 0.6) 4 in
        mret (mkResult (best_label best) freshness_label combined_conf true (Some box))
  end.

(** ** loader.py: loading and caching *)

(** What [torch.load] returns: a checkpoint dictionary or a model object. *)
Inductive Loaded :=
  | LoadedDict (d : gmap string StateDict)
  | LoadedModule (m : Classifier).

(** The answers of the process environment (file system, CUDA runtime,
    model files) during one call of [load_models]. *)
Record LoadEnv := mkLoadEnv {
  cuda_is_available : bool;
  path_exists : string → bool;
  YOLO_new : string → result YOLO;
  yolo_to : YOLO → string → result YOLO;
  torch_load : string → Device → result Loaded
}.

(** The module-level singleton [_bundle], with the counter that gives each
    new bundle object its identity. *)
Record LoaderState := mkLoader {
  next_id : nat;
  _bundle : option (ObjRef ModelBundle)
}.

Definition loader_init : LoaderState := mkLoader 0 None.

Definition _resolve_device (env : LoadEnv) (device_str : string) : result Device :=
  if bool_decide (device_str = "cuda") && negb (cuda_is_available env)
  then torch_device "cpu"
  else torch_device device_str.

Definition _load_yolo (env : LoadEnv) (weights_path : string) (device : Device)
  : result YOLO :=
  model ← (if path_exists env weights_path
           then YOLO_new env (str_Path weights_path)
           else YOLO_new env "yolov8n.pt");
  yolo_to env model (str_device device).

Definition _load_freshness_classifier (env : LoadEnv) (weights_path : string)
    (device : Device) : option Classifier :=
  if negb (path_exists env weights_path) then None
  else
    match
      model ← torch_load env (str_Path weights_path) device;
      match model with
      | LoadedDict d =>
          net ← FreshnessNet_new;
          sd ← match d !! "state_dict" with
               | Some sd => Ok sd
               | None => Raise (PyExc (OtherException "KeyError") "'state_dict'")
               end;
          net ← load_state_dict net sd;
          net ← module_to net device;
          mret (module_eval net)
      | LoadedModule m =>
          m ← module_to m device;
          mret (module_eval m)
      end
    with
    | Ok net => Some net
    | Raise exc => None
    end.

Definition load_models (env : LoadEnv) (yolo_path freshness_path device_str : string)
    (st : LoaderState) : result (ObjRef ModelBundle) * LoaderState :=
  match _bundle st with
  | Some b => (Ok b, st)
  | None =>
      match
        device ← _resolve_device env device_str;
        yolo ← _load_yolo env yolo_path device;
        let freshness := _load_freshness_classifier env freshness_path device in
        mret (mkBundle yolo freshness device FOOD_LABELS
                       ["fresh"; "semi-fresh"; "spoiled"])
      with
      | Ok b =>
          let r := mkRef (next_id st) b in
          (Ok r, mkLoader (S (next_id st)) (Some r))
      | Raise exc => (Raise exc, st)
      end
  end.

Definition get_bundle (st : LoaderState) : result (ObjRef ModelBundle) :=
  match _bundle st with
  | None =>
      Raise (PyExc RuntimeError "Models have not been loaded. Call load_models() first.")
  | Some b => Ok b
  end.

(** ** routers/predict.py *)

Definition SUPPORTED_CONTENT_TYPES : gset string :=
  list_to_set ["image/jpeg"; "image/png"; "image/webp"; "image/bmp"].

Definition MAX_FILE_SIZE_BYTES : Z := 10 * 1024 * 1024.

(** The response schema; pydantic checks [0 <= confidence <= 1] when the
    object is built, and its [ValidationError] is a [ValueError]. *)
Record PredictionResponse := mkResponse {
  resp_food : string;
  resp_freshness : string;
  resp_confidence : Q;
  resp_detected : bool;
  inference_time_ms : Q
}.

Definition PredictionResponse_new (food freshness : string) (confidence : Q)
    (detected : bool) (inference_time_ms : Q) : result PredictionResponse :=
  if Qltb confidence 0.0 || Qltb 1.0 confidence
  then Raise (PyExc ValueError "1 validation error for PredictionResponse")
  else Ok (mkResponse food freshness confidence detected inference_time_ms).

(** The uploaded file: its declared content type and its bytes. *)
Record UploadFile := mkUpload {
  content_type : option string;
  file_bytes : list Byte.byte
}.

(** What one request reads from its surroundings: the two readings of
    [time.perf_counter] and the value [random()] would give. *)
Record RequestEnv := mkRequestEnv {
  perf_counter_0 : Q;
  perf_counter_1 : Q;
  random_value : Q
}.

(** [len(image_bytes)] *)
Definition len (b : list Byte.byte) : Z := Z.of_nat (length b).

Definition unsupported_detail (ct : option string) : string :=
  "Unsupported content type '" +:+ default "None" ct +:+ "'. "
  +:+ "Accepted: " +:+ join ", " (sorted (elements SUPPORTED_CONTENT_TYPES)).

Definition too_large_detail (n : Z) : string :=
  "File too large (" +:+ pretty (n `div` 1024) +:+ " KB). Max 10 MB allowed.".

Definition supported (ct : option string) : bool :=
  match ct with
  | Some s => bool_decide (s ∈ SUPPORTED_CONTENT_TYPES)
  | None => false
  end.

(** The part of [predict] after the size check: decode, run, answer. *)
Definition decode_and_infer (renv : RequestEnv) (image_bytes : list Byte.byte)
    (st : LoaderState) : result PredictionResponse :=
  match bytes_to_pil image_bytes with
  | Raise exc =>
      if is_ValueError exc
      then Raise (HTTPException HTTP_400_BAD_REQUEST (exn_str exc))
      else Raise exc
  | Ok pil_image =>
      match
        bundle ← get_bundle st;
        let t0 := perf_counter_0 renv in
        result ← run_inference pil_image (obj_val bundle) (random_value renv);
        let elapsed_ms := py_round_n ((perf_counter_1 renv - t0) * 1000) 2 in
        mret (result, elapsed_ms)
      with
      | Raise exc =>
          if is_RuntimeError exc
          then Raise (HTTPException HTTP_500_INTERNAL_SERVER_ERROR
                        "Model inference failed. Please try again.")
          else Raise exc
      | Ok (result, elapsed_ms) =>
          PredictionResponse_new (food result) (freshness result)
            (confidence result) (detected result) elapsed_ms
      end
  end.

Definition predict (renv : RequestEnv) (file : UploadFile) (st : LoaderState)
  : result PredictionResponse :=
  if negb (supported (content_type file))
  then Raise (HTTPException HTTP_400_BAD_REQUEST
                (unsupported_detail (content_type file)))
  else
    let image_bytes := file_bytes file in
    if MAX_FILE_SIZE_BYTES <? len image_bytes
    then Raise (HTTPException HTTP_422_UNPROCESSABLE_ENTITY
                  (too_large_detail (len image_bytes)))
    else decode_and_infer renv image_bytes st.

(** ** The selection, as the specification words it

    These definitions follow the text of the specification, not the code;
    they are compared with [run_inference] below. *)

(** [names.get(cls_id, "food")]: the class name of a detection. *)
Definition class_name (bundle : ModelBundle) (box : Box) : string :=
  default "food" (yolo_names (yolo bundle) !! cls box).

(** A candidate survives when its class id is one of the food ids of the
    80-category vocabulary (46 to 61), or its lower-cased class name is the
    lower-cased form of one of the bundle's food labels. *)
Definition spec_is_food (bundle : ModelBundle) (box : Box) : Prop :=
  46 <= cls box <= 61
  ∨ Exists (λ l, lower (class_name bundle box) = lower l) (food_labels bundle).

#[global] Instance spec_is_food_dec bundle box : Decision (spec_is_food bundle box).
Proof. unfold spec_is_food. apply _. Defined.

(** The candidates of a detector output: the boxes of its first element. *)
Definition candidates (results : list Results) : list Box :=
  match results with r0 :: _ => boxes r0 | [] => [] end.

Definition spec_survivors (bundle : ModelBundle) (results : list Results) : list Box :=
  filter (spec_is_food bundle) (candidates results).

(** The candidate of strictly highest confidence, the first one on ties. *)
Fixpoint spec_first_max (l : list Box) : option Box :=
  match l with
  | [] => None
  | b :: l' =>
      match spec_first_max l' with
      | None => Some b
      | Some m => if Qltb (conf b) (conf m) then Some m else Some b
      end
  end.

(** Steps 4 to 7 of the specified algorithm, from the selected candidate. *)
Definition spec_finish (image : Image) (bundle : ModelBundle) (rnd : Q)
    (selected : option Box) : result PredictionResult :=
  match selected with
  | None => mret not_detected
  | Some m =>
      if Qltb (conf m) 0.10 then mret not_detected
      else
        crop ← crop_bbox image (xyxy m) 0.05;
        '(freshness_label, freshness_conf) ← _classify_freshness bundle crop rnd;
        mret (mkResult (replace_space (lower (class_name bundle m))) freshness_label
                (py_round_n (conf m * 0.4 + freshness_conf * 0.6) 4)
                true (Some (xyxy m)))
  end.

Definition spec_run_inference (image : Image) (bundle : ModelBundle) (rnd : Q)
  : result PredictionResult :=
  results ← yolo_call (yolo bundle) image;
  spec_finish image bundle rnd (spec_first_max (spec_survivors bundle results)).

(** [m] is at position [i] of [l], no element of [l] has a higher
    confidence, and every earlier element has a strictly lower one. *)
Definition is_first_max (l : list Box) (i : nat) (m : Box) : Prop :=
  l !! i = Some m
  ∧ (∀ j x, l !! j = Some x → (conf x <= conf m)%Q)
  ∧ (∀ j x, (j < i)%nat → l !! j = Some x → (conf x < conf m)%Q).

(** The loop variables after the candidate [m] has been taken. *)
Definition best_of (bundle : ModelBundle) (m : Box) : Best :=
  mkBest (Some (xyxy m)) (conf m) (replace_space (lower (class_name bundle m))).

(** ** Histories of loader calls *)

(** One call of [load_models]: its three arguments and what the environment
    answers while it runs. *)
Record LoadCall := mkLoadCall {
  call_env : LoadEnv;
  call_yolo_path : string;
  call_freshness_path : string;
  call_device_str : string
}.

Definition call_load (c : LoadCall) (st : LoaderState)
  : result (ObjRef ModelBundle) * LoaderState :=
  load_models (call_env c) (call_yolo_path c) (call_freshness_path c)
    (call_device_str c) st.

(** A sequence of calls, one after the other: what each returned, and the
    final state. *)
Fixpoint run_loads (calls : list LoadCall) (st : LoaderState)
  : list (result (ObjRef ModelBundle)) * LoaderState :=
  match calls with
  | [] => ([], st)
  | c :: calls' =>
      let '(r, st1) := call_load c st in
      let '(rs, st2) := run_loads calls' st1 in
      (r :: rs, st2)
  end.

Definition not_loaded_error : exn :=
  PyExc RuntimeError "Models have not been loaded. Call load_models() first.".

(** ** Readings of the specification's words *)

(** A byte string is a valid image in a supported codec when Pillow opens
    it and converts it to RGB. *)
Definition decodable (image_bytes : list Byte.byte) : Prop :=
  ∃ img0 img, PIL_open image_bytes = Ok img0 ∧ PIL_convert img0 "RGB" = Ok img.

(** A failure [exc] raised by the detector call or by the classifier's forward
    call while [run_inference] runs on [image]. *)
Definition model_call_fails (image : Image) (bundle : ModelBundle) (exc : exn) : Prop :=
  yolo_call (yolo bundle) image = Raise exc
  ∨ ∃ results xy crop classifier t tensor,
      yolo_call (yolo bundle) image = Ok results
      ∧ best_box (scan_results bundle results) = Some xy
      ∧ (0.10 <= best_conf (scan_results bundle results))%Q
      ∧ crop_bbox image xy 0.05 = Ok crop
      ∧ freshness_classifier bundle = Some classifier
      ∧ to_freshness_tensor crop = Ok t
      ∧ tensor_to t (device bundle) = Ok tensor
      ∧ predict_module classifier tensor = Raise exc.

Definition inference_failed : exn :=
  HTTPException HTTP_500_INTERNAL_SERVER_ERROR "Model inference failed. Please try again.".

(** The start-up half of [lifespan] in main.py: the models are loaded from
    the settings. *)
Definition lifespan_startup (settings : Settings) (env : LoadEnv) (st : LoaderState)
  : result (ObjRef ModelBundle) * LoaderState :=
  load_models env (yolo_weights_path settings) (freshness_weights_path settings)
    (settings_device settings) st.

End Backend.

(** ** A small instance of the interface

    Used to run the model on concrete inputs: an image is its mode, its size
    and its two colour statistics; a detector is the answer it gives; a
    classifier is the prediction it gives. *)

Record ToyImage := mkToyImage {
  toy_mode : string;
  toy_size : Z * Z;
  toy_saturation : Q;
  toy_value : Q
}.

Record ToyYOLO := mkToyYOLO {
  toy_answer : result (list Results);
  toy_names : gmap Z string
}.

Definition toy_open (b : list Byte.byte) : result ToyImage :=
  match b with
  | [] => Raise (PyExc OSError "cannot identify image file")
  | _ => Ok (mkToyImage "L" (len b, 1) 150 140)
  end.

(** A 100 x 80 RGB picture with vivid colours. *)
Definition toy_photo : ToyImage := mkToyImage "RGB" (100, 80) 150 140.

#[global, refine] Instance toy_imaging : Imaging := {|
  Image := ToyImage;
  Array := ToyImage;
  Tensor := unit;
  Device := string;
  YOLO := ToyYOLO;
  Classifier := result (Z * Q);
  StateDict := unit;
  PIL_open := toy_open;
  PIL_convert img m := Ok (mkToyImage m (toy_size img) (toy_saturation img) (toy_value img));
  PIL_mode := toy_mode;
  PIL_size := toy_size;
  PIL_crop img r :=
    let '(a, b, c, d) := pixel_box r in
    Ok (mkToyImage (toy_mode img) (c - a, d - b) (toy_saturation img) (toy_value img));
  PIL_fromarray a := a;
  np_array img := img;
  cv2_cvtColor a _ := Ok a;
  clahe_apply_channel0 _ _ a := Ok a;
  np_mean_channel a c := if decide (c = 1%nat) then toy_saturation a else toy_value a;
  FRESHNESS_TRANSFORM _ := Ok ();
  unsqueeze t _ := t;
  tensor_to t _ := Ok t;
  predict_module c _ := c;
  torch_device s := Ok s;
  str_Path s := s;
  str_device d := d;
  FreshnessNet_new := Ok (Ok (0, 1%Q));
  load_state_dict c _ := Ok c;
  module_to c _ := Ok c;
  module_eval c := c;
  yolo_call y _ := toy_answer y;
  yolo_names := toy_names
|}.
Proof. intros img m img' [= <-]. reflexivity. Defined.

(** Class names of the toy detector, and two bundles without a trained
    classifier: one whose detector sees a person and a faint apple, one whose
    detector sees a clear apple. *)
Definition toy_vocabulary : gmap Z string :=
  <[0 := "person"]> (<[47 := "apple"]> (<[52 := "Hot Dog"]> ∅)).

Definition toy_bundle (answer : result (list Results))
    (classifier : option (result (Z * Q))) : ModelBundle :=
  mkBundle (mkToyYOLO answer toy_vocabulary) classifier "cpu" FOOD_LABELS FRESHNESS_LABELS.

Definition faint_apple : list Results :=
  [ mkResults [ mkBox 0 0.9 (0, 0, 40, 70)%Q; mkBox 47 0.05 (10, 20, 50, 60)%Q ] ].

Definition clear_apple : list Results :=
  [ mkResults [ mkBox 0 0.9 (0, 0, 40, 70)%Q; mkBox 47 0.8 (10, 20, 50, 60)%Q ] ].

(** An environment without weight files and without CUDA, and one in which
    the detector cannot be built. *)
Definition toy_env : LoadEnv :=
  mkLoadEnv false (λ _, false)
    (λ _, Ok (mkToyYOLO (Ok clear_apple) toy_vocabulary))
    (λ y _, Ok y)
    (λ _ _, Raise (PyExc OSError "No such file")).

Definition toy_env_broken : LoadEnv :=
  mkLoadEnv false (λ _, false)
    (λ _, Raise (PyExc (OtherException "ConnectionError") "download failed"))
    (λ y _, Ok y)
    (λ _ _, Raise (PyExc OSError "No such file")).

Definition startup_call : LoadCall :=
  mkLoadCall toy_env "weights/yolov8n.pt" "weights/freshness_classifier.pt" "cpu".

Definition other_call : LoadCall :=
  mkLoadCall toy_env_broken "elsewhere.pt" "other.pt" "cuda".

(** A loader state whose cached detector raises when it is called. *)
Definition toy_loaded (exc : exn) : LoaderState :=
  mkLoader 1 (Some (mkRef 0%nat (toy_bundle (Raise exc) None))).

Definition toy_upload : UploadFile :=
  mkUpload (Some "image/png") [Byte.x89; Byte.x50; Byte.x4e; Byte.x47].

Definition toy_request : RequestEnv := mkRequestEnv 10 (10 + 0.25) (1 # 2).

(** ** Shapes of labels *)

(** An upper-case ASCII letter. *)
Definition is_upper (c : ascii) : bool :=
  let n := nat_of_ascii c in ((65 <=? n) && (n <=? 90))%nat.

(** Every character of [s] satisfies [p]. *)
Fixpoint string_all (p : ascii → bool) (s : string) : bool :=
  match s with
  | EmptyString => true
  | String c s' => p c && string_all p s'
  end.

(** A character a food label may hold: no space, no upper-case letter. *)
Definition label_char (c : ascii) : bool :=
  negb (is_upper c) && negb (Ascii.eqb c " "%char).

(** Bundles of the toy detector with a trained classifier that answers
    class 2, and one that answers a class the labels do not have. *)
Definition toy_bundle_spoiled : ModelBundle :=
  toy_bundle (Ok clear_apple) (Some (Ok (2, 0.912345%Q))).

Definition toy_bundle_class7 : ModelBundle :=
  toy_bundle (Ok clear_apple) (Some (Ok (7, 0.912345%Q))).

(** A detector that sees a hot dog, under the class name "Hot Dog". *)
Definition hot_dog : list Results :=
  [ mkResults [ mkBox 52 0.7 (5, 5, 60, 40)%Q ] ].

(** * Properties *)

(** ** Rounding and comparisons *)

Example lower_Hot_Dog : replace_space (lower "Hot Dog") = "hot_dog".
Proof. reflexivity. Qed.

Example py_round_ties :
  py_round (1 # 2) = 0 /\ py_round (3 # 2) = 2 /\ py_round (5 # 2) = 2 /\
  py_round (-1 # 2) = 0 /\ py_round (7 # 4) = 2.
Proof. repeat split; reflexivity. Qed.

Lemma Qltb_true (a b : Q) : Qltb a b = true ↔ (a < b)%Q.
Proof.
  unfold Qltb. destruct (Qlt_le_dec a b) as [Hlt|Hle]; split; intros Hx; try done.
  exfalso. apply (Qle_not_lt _ _ Hle Hx).
Qed.

Lemma Qltb_false (a b : Q) : Qltb a b = false ↔ (b <= a)%Q.
Proof.
  unfold Qltb. destruct (Qlt_le_dec a b) as [Hlt|Hle]; split; intros Hx; try done.
  exfalso. apply (Qle_not_lt _ _ Hx Hlt).
Qed.

(** Linear arithmetic over [Q] with injected integers [z + 1]. *)
Ltac inj_lra :=
  rewrite ?inject_Z_plus in *; change (inject_Z 1) with 1%Q in *; lra.

Lemma py_round_cases (q : Q) :
  py_round q = Qfloor q ∨ py_round q = Qfloor q + 1.
Proof.
  unfold py_round.
  destruct (q - inject_Z (Qfloor q) ?= 1 # 2)%Q; [destruct (Z.even _)|..]; auto.
Qed.

(** The rounded value is within one half of the argument. *)
Lemma py_round_near (q : Q) :
  (q - (1 # 2) <= inject_Z (py_round q) <= q + (1 # 2))%Q.
Proof.
  pose proof (Qfloor_le q) as Hlo.
  pose proof (Qlt_floor q) as Hhi.
  unfold py_round.
  destruct (q - inject_Z (Qfloor q) ?= 1 # 2)%Q eqn:Hc.
  - apply Qeq_alt in Hc.
    destruct (Z.even (Qfloor q)); split; inj_lra.
  - apply Qlt_alt in Hc. split; inj_lra.
  - apply Qgt_alt in Hc. split; inj_lra.
Qed.

(** Rounding never crosses an integer. *)
Lemma py_round_ge_Z (z : Z) (q : Q) : (inject_Z z <= q)%Q → z <= py_round q.
Proof.
  intros Hz. apply Qfloor_resp_le in Hz. rewrite Qfloor_Z in Hz.
  destruct (py_round_cases q) as [-> | ->]; lia.
Qed.

Lemma py_round_le_Z (z : Z) (q : Q) : (q <= inject_Z z)%Q → py_round q <= z.
Proof.
  intros Hz. pose proof (Qfloor_resp_le _ _ Hz) as Hf. rewrite Qfloor_Z in Hf.
  destruct (Z.eq_dec (Qfloor q) z) as [Heq | Hne].
  - unfold py_round. pose proof (Qfloor_le q) as Hlo. rewrite Heq in *.
    destruct (q - inject_Z z ?= 1 # 2)%Q eqn:Hc; try lia.
    + apply Qeq_alt in Hc. lra.
    + apply Qgt_alt in Hc. lra.
  - destruct (py_round_cases q) as [-> | ->]; lia.
Qed.

Lemma py_round_Z (z : Z) : py_round (inject_Z z) = z.
Proof.
  apply Z.le_antisymm; [apply py_round_le_Z | apply py_round_ge_Z]; lra.
Qed.

(** Two numbers more than one apart round to different integers. *)
Lemma py_round_lt (a b : Q) : (a + 1 < b)%Q → py_round a < py_round b.
Proof.
  intros Hab.
  pose proof (py_round_near a) as [_ Ha]. pose proof (py_round_near b) as [Hb _].
  rewrite Zlt_Qlt. lra.
Qed.

Lemma pow10_pos (n : nat) : (0 < inject_Z (10 ^ Z.of_nat n))%Q.
Proof.
  replace 0%Q with (inject_Z 0) by reflexivity. rewrite <- Zlt_Qlt.
  apply Z.pow_pos_nonneg; lia.
Qed.

(** Rounding to [n] decimals stays between two bounds that have at most [n]
    decimals themselves. *)
Lemma py_round_n_between (lo hi : Z) (q : Q) (n : nat) :
  let p := inject_Z (10 ^ Z.of_nat n) in
  (inject_Z lo / p <= q <= inject_Z hi / p)%Q →
  (inject_Z lo / p <= py_round_n q n <= inject_Z hi / p)%Q.
Proof.
  intros p [Hlo Hhi]. pose proof (pow10_pos n) as Hp. fold p in Hp.
  unfold py_round_n. fold p.
  assert (Hp0 : ¬ p == 0) by lra.
  assert (Hinv : (0 <= / p)%Q) by (apply Qinv_le_0_compat; lra).
  assert (Elo : (inject_Z lo / p * p == inject_Z lo)%Q) by (field; done).
  assert (Ehi : (inject_Z hi / p * p == inject_Z hi)%Q) by (field; done).
  apply (Qmult_le_compat_r _ _ p) in Hlo; [|lra].
  apply (Qmult_le_compat_r _ _ p) in Hhi; [|lra].
  rewrite Elo in Hlo. rewrite Ehi in Hhi.
  split; unfold Qdiv; (apply Qmult_le_compat_r; [|done]); rewrite <- Zle_Qle.
  - by apply py_round_ge_Z.
  - by apply py_round_le_Z.
Qed.

(** The rounded value has at most [n] decimals. *)
Lemma py_round_n_decimals (q : Q) (n : nat) :
  ∃ k : Z, py_round_n q n = (inject_Z k / inject_Z (10 ^ Z.of_nat n))%Q.
Proof. eexists. reflexivity. Qed.

(** ** crop_bbox *)

Example crop_bbox_rect_inside :
  crop_bbox_rect 100 80 (10, 20, 50, 60)%Q 0.05 = (8.00, 18.00, 52.00, 62.00)%Q.
Proof. reflexivity. Qed.

Example crop_bbox_rect_clamped :
  pixel_box (crop_bbox_rect 100 80 (-5, 70, 99, 90)%Q 0.05) = (0, 69, 100, 80).
Proof. reflexivity. Qed.

(** One axis of the crop: when the part of the interval [lo, hi] inside
    [0, w] is at least one pixel long, the padded and clamped interval
    rounds to pixel bounds inside [0, w] that are at least one pixel apart. *)
Lemma crop_axis_valid (w : Z) (lo hi : Q) :
  (py_max 0 lo + 1 <= py_min (inject_Z w) hi)%Q →
  let pad := ((hi - lo) * 0.05)%Q in
  let a := py_round (py_max 0 (lo - pad)) in
  let c := py_round (py_min (inject_Z w) (hi + pad)) in
  0 <= a ∧ a + 1 <= c ∧ c <= w.
Proof.
  intros Hvis pad a c. subst a c.
  assert (Hpad : (0 < pad)%Q).
  { subst pad. revert Hvis. unfold py_max, py_min.
    repeat destruct (Qlt_le_dec _ _); intros; lra. }
  split; [|split].
  - apply py_round_ge_Z. change (inject_Z 0) with 0%Q.
    unfold py_max. destruct (Qlt_le_dec _ _); lra.
  - revert Hvis. unfold py_max at 1 2.
    destruct (Qlt_le_dec 0 (lo - pad)) as [Hin | Hout].
    + intros Hvis.
      enough (py_round (lo - pad) < py_round (py_min (inject_Z w) (hi + pad))) by lia.
      apply py_round_lt. revert Hvis. unfold py_min.
      repeat destruct (Qlt_le_dec _ _); intros; lra.
    + intros Hvis. change (py_round 0 + 1) with 1.
      apply py_round_ge_Z. change (inject_Z 1) with 1%Q.
      revert Hvis. unfold py_min.
      repeat destruct (Qlt_le_dec _ _); intros; lra.
  - apply py_round_le_Z. unfold py_min. destruct (Qlt_le_dec _ _); lra.
Qed.

(** The crop is valid when each bound of its pixel box is. *)
Definition crop_is_valid (w h : Z) (box : Q * Q * Q * Q) : Prop :=
  valid_crop w h (pixel_box (crop_bbox_rect w h box 0.05)).

(** C1, as amended: when the part of the box that lies inside the image is
    at least one pixel wide and one pixel high, [crop_bbox] with padding 0.05
    asks [Image.crop] for a rectangle whose pixel bounds lie inside the image
    and whose width and height are at least one pixel. *)
Theorem crop_bbox_valid_when_visible `{Imaging} (img : Image) (w h : Z)
    (x1 y1 x2 y2 : Q) :
  PIL_size img = (w, h) →
  (py_max 0 x1 + 1 <= py_min (inject_Z w) x2)%Q →
  (py_max 0 y1 + 1 <= py_min (inject_Z h) y2)%Q →
  crop_bbox img (x1, y1, x2, y2) 0.05
    = PIL_crop img (crop_bbox_rect w h (x1, y1, x2, y2) 0.05)
  ∧ crop_is_valid w h (x1, y1, x2, y2).
Proof.
  intros Hsize Hx Hy. split.
  - unfold crop_bbox. by rewrite Hsize.
  - unfold crop_is_valid, crop_bbox_rect, pixel_box, valid_crop.
    pose proof (crop_axis_valid w x1 x2 Hx) as (? & ? & ?).
    pose proof (crop_axis_valid h y1 y2 Hy) as (? & ? & ?).
    done.
Qed.

Lemma crop_bbox_valid_when_visible_witness :
  crop_bbox toy_photo (10, 20, 50, 60)%Q 0.05
    = PIL_crop toy_photo (crop_bbox_rect 100 80 (10, 20, 50, 60)%Q 0.05)
  ∧ crop_is_valid 100 80 (10, 20, 50, 60)%Q.
Proof.
  apply (crop_bbox_valid_when_visible (H := toy_imaging) toy_photo 100 80 10 20 50 60).
  - reflexivity.
  - vm_compute. discriminate.
  - vm_compute. discriminate.
Defined.

(** C1, as stated, fails: a box of zero area gives an empty crop, and a box
    outside the image gives a rectangle that leaves the image. *)
Lemma crop_bbox_degenerate_box_invalid :
  pixel_box (crop_bbox_rect 10 10 (5, 5, 5, 5)%Q 0.05) = (5, 5, 5, 5)
  ∧ ¬ crop_is_valid 10 10 (5, 5, 5, 5)%Q
  ∧ pixel_box (crop_bbox_rect 100 100 (200, 200, 300, 300)%Q 0.05) = (195, 195, 100, 100)
  ∧ ¬ crop_is_valid 100 100 (200, 200, 300, 300)%Q.
Proof.
  split; [reflexivity|]. split; [|split; [reflexivity|]].
  - vm_compute. intros (_ & Hw & _). by apply Hw.
  - vm_compute. intros (_ & Hw & _). by apply Hw.
Qed.

(** ** The detection loop of run_inference *)

Section Pipeline.
Context `{Imaging}.
Implicit Types (bundle : ModelBundle) (box m : Box) (best : Best).

Lemma elem_of_COCO_FOOD_CLASSES (c : Z) : c ∈ COCO_FOOD_CLASSES ↔ 46 <= c <= 61.
Proof.
  unfold COCO_FOOD_CLASSES. rewrite elem_of_list_to_set.
  repeat rewrite elem_of_cons. rewrite elem_of_nil. lia.
Qed.

Lemma elem_of_lowered_labels (s : string) (labels : list string) :
  s ∈ (list_to_set (lower <$> labels) : gset string)
  ↔ Exists (λ l, s = lower l) labels.
Proof.
  rewrite elem_of_list_to_set, list_elem_of_fmap, Exists_exists.
  split; intros (l & ? & ?); exists l; auto.
Qed.

(** The loop skips a box exactly when the specified filter discards it. *)
Lemma scan_box_discards bundle best box :
  ¬ spec_is_food bundle box → scan_box bundle best box = best.
Proof.
  intros Hno. unfold scan_box.
  rewrite !bool_decide_eq_true_2; [done | |].
  - rewrite elem_of_lowered_labels. intros Hex. apply Hno. by right.
  - rewrite elem_of_COCO_FOOD_CLASSES. intros Hin. apply Hno. by left.
Qed.

Lemma scan_box_keeps bundle best box :
  spec_is_food bundle box →
  scan_box bundle best box
  = if Qltb (best_conf best) (conf box) then best_of bundle box else best.
Proof.
  intros Hfood. unfold scan_box.
  destruct (bool_decide (cls box ∉ COCO_FOOD_CLASSES)
            && bool_decide (lower (default "food" (yolo_names (yolo bundle) !! cls box))
                 ∉ (list_to_set (lower <$> food_labels bundle) : gset string)))
    eqn:Hskip; [|done].
  exfalso. apply andb_true_iff in Hskip as [Hc Hn].
  apply bool_decide_eq_true_1 in Hc, Hn.
  destruct Hfood as [Hid | Hname].
  - apply Hc. by apply elem_of_COCO_FOOD_CLASSES.
  - apply Hn. by apply elem_of_lowered_labels.
Qed.

Lemma Qltb_trans_lt_le (a b c : Q) :
  Qltb a b = true → Qltb b c = true → Qltb a c = true.
Proof. rewrite !Qltb_true. apply Qlt_trans. Qed.

(** The loop agrees with the specified selection: from any value of the loop
    variables, scanning the boxes takes the first survivor of highest
    confidence if that confidence beats the current one, and otherwise
    changes nothing. *)
Lemma scan_fold bundle (l : list Box) best :
  fold_left (scan_box bundle) l best
  = match spec_first_max (filter (spec_is_food bundle) l) with
    | Some m => if Qltb (best_conf best) (conf m) then best_of bundle m else best
    | None => best
    end.
Proof.
  revert best. induction l as [|b l IH]; intros best; [done|].
  cbn [fold_left]. rewrite IH. rewrite filter_cons.
  destruct (decide (spec_is_food bundle b)) as [Hfood | Hno].
  - rewrite (scan_box_keeps _ _ _ Hfood). cbn [spec_first_max].
    destruct (spec_first_max (filter (spec_is_food bundle) l)) as [m|]; [|done].
    destruct (Qltb (best_conf best) (conf b)) eqn:Hb;
      destruct (Qltb (conf b) (conf m)) eqn:Hm; cbn [best_of best_conf].
    + rewrite Hm. by rewrite (Qltb_trans_lt_le _ _ _ Hb Hm).
    + rewrite Hm. by rewrite Hb.
    + done.
    + destruct (Qltb (best_conf best) (conf m)) eqn:Hbm; [|by rewrite Hb].
      exfalso. apply Qltb_true in Hbm. apply Qltb_false in Hb, Hm. lra.
  - by rewrite (scan_box_discards _ _ _ Hno).
Qed.

Lemma scan_results_spec bundle (results : list Results) :
  scan_results bundle results
  = match spec_first_max (spec_survivors bundle results) with
    | Some m => if Qltb 0.0 (conf m) then best_of bundle m else best_init
    | None => best_init
    end.
Proof.
  unfold scan_results, spec_survivors, candidates.
  destruct results as [|r0 rest]; [done|].
  destruct (boxes r0) as [|b l] eqn:Hb; [done|].
  change (0 <? length (b :: l))%nat with true. cbn match.
  by rewrite scan_fold.
Qed.

(** What [spec_first_max] computes. *)
Lemma spec_first_max_None (l : list Box) : spec_first_max l = None ↔ l = [].
Proof.
  destruct l as [|b l]; [done|]. cbn.
  destruct (spec_first_max l); [destruct (Qltb _ _)|]; done.
Qed.

Lemma spec_first_max_is_first_max (l : list Box) (m : Box) :
  spec_first_max l = Some m → ∃ i, is_first_max l i m.
Proof.
  revert m. induction l as [|b l IH]; intros m; [done|]. cbn.
  destruct (spec_first_max l) as [m'|] eqn:Hm'.
  - destruct (IH m' eq_refl) as (i & Hi & Hmax & Hfirst).
    destruct (Qltb (conf b) (conf m')) eqn:Hlt; intros [= <-].
    + apply Qltb_true in Hlt. exists (S i). split; [done|]. split.
      * intros [|j] x; cbn; [intros [= <-]; lra | apply Hmax].
      * intros [|j] x Hj; cbn; [intros [= <-]; done | apply Hfirst; lia].
    + apply Qltb_false in Hlt. exists 0%nat. split; [done|]. split.
      * intros [|j] x; cbn; [intros [= <-]; lra |].
        intros Hx. specialize (Hmax j x Hx). lra.
      * intros j x Hj. lia.
  - apply spec_first_max_None in Hm'. subst l. intros [= <-].
    exists 0%nat. split; [done|]. split.
    + intros [|j] x; cbn; [intros [= <-]; lra | done].
    + intros j x Hj. lia.
Qed.

(** *** Selection (C5) *)

(** C5: [run_inference] behaves as the specified algorithm, which keeps the
    candidates whose class id is a food id (46 to 61) or whose lower-cased
    name is a lower-cased food label, and takes among them the one of
    strictly highest confidence, the first in detector order on ties.  The
    loop variables hold that candidate as soon as its confidence is
    positive, and they never hold anything else. *)
Theorem run_inference_selects_first_best (image : Image) bundle (rnd : Q) :
  run_inference image bundle rnd = spec_run_inference image bundle rnd
  ∧ ∀ results : list Results,
      (∀ m, spec_first_max (spec_survivors bundle results) = Some m →
            (0 < conf m)%Q → scan_results bundle results = best_of bundle m)
      ∧ (∀ xy, best_box (scan_results bundle results) = Some xy →
            ∃ i m, is_first_max (spec_survivors bundle results) i m
                   ∧ (∀ x, x ∈ spec_survivors bundle results
                           ↔ x ∈ candidates results ∧ spec_is_food bundle x)
                   ∧ scan_results bundle results = best_of bundle m).
Proof.
  split.
  - unfold run_inference, spec_run_inference.
    destruct (yolo_call (yolo bundle) image) as [results|e]; [|done]. cbn.
    rewrite scan_results_spec.
    destruct (spec_first_max (spec_survivors bundle results)) as [m|]; [|done].
    destruct (Qltb 0.0 (conf m)) eqn:Hpos; [done|]. cbn.
    apply Qltb_false in Hpos.
    assert (Hlow : Qltb (conf m) 0.10 = true) by (apply Qltb_true; lra).
    by rewrite Hlow.
  - intros results. rewrite scan_results_spec. split.
    + intros m -> Hpos.
      assert (Hgt : Qltb 0.0 (conf m) = true) by (apply Qltb_true; lra).
      by rewrite Hgt.
    + intros xy.
      destruct (spec_first_max (spec_survivors bundle results)) as [m|] eqn:Hm; [|done].
      destruct (Qltb 0.0 (conf m)); [|done]. intros _.
      destruct (spec_first_max_is_first_max _ _ Hm) as [i Hi].
      exists i, m. split; [done|]. split; [|done].
      intros x. unfold spec_survivors. rewrite list_elem_of_filter. tauto.
Qed.

(** *** No detection (C2) *)

(** C2: when every candidate that survives the food filter has a confidence
    below 0.10 (in particular when none survives, or the detector found
    nothing), [run_inference] returns food "unknown", freshness "unknown",
    confidence 0.0, detected false and no box. *)
Theorem run_inference_not_detected (image : Image) bundle (rnd : Q)
    (results : list Results) :
  yolo_call (yolo bundle) image = Ok results →
  (∀ b, b ∈ spec_survivors bundle results → (conf b < 0.10)%Q) →
  run_inference image bundle rnd = Ok (mkResult "unknown" "unknown" 0.0 false None).
Proof.
  intros Hcall Hlow. unfold run_inference. rewrite Hcall. cbn.
  rewrite scan_results_spec.
  destruct (spec_first_max (spec_survivors bundle results)) as [m|] eqn:Hm; [|done].
  destruct (Qltb 0.0 (conf m)); [|done]. cbn.
  destruct (spec_first_max_is_first_max _ _ Hm) as (i & Hi & _).
  apply list_elem_of_lookup_2, Hlow, Qltb_true in Hi. by rewrite Hi.
Qed.

(** *** Blending (C4) *)

Lemma py_round_4_unit (q : Q) : (0 <= q <= 1)%Q → (0 <= py_round_n q 4 <= 1)%Q.
Proof.
  intros Hq.
  assert (E0 : (inject_Z 0 / inject_Z (10 ^ Z.of_nat 4) == 0)%Q) by reflexivity.
  assert (E1 : (inject_Z 10000 / inject_Z (10 ^ Z.of_nat 4) == 1)%Q) by reflexivity.
  pose proof (py_round_n_between 0 10000 q 4) as Hb. cbv zeta in Hb.
  rewrite E0, E1 in Hb. by apply Hb.
Qed.

(** C4: when the loop has selected a box with confidence [det] of at least
    0.10 and the crop and the freshness estimate succeed with confidence
    [fc], [run_inference] returns a detected result whose confidence is
    [round(det * 0.4 + fc * 0.6, 4)]; it lies in [0, 1] when [det] and [fc]
    do. *)
Theorem run_inference_blends (image : Image) bundle (rnd : Q)
    (results : list Results) (box : Q * Q * Q * Q) (crop : Image)
    (fl : string) (fc : Q) :
  yolo_call (yolo bundle) image = Ok results →
  best_box (scan_results bundle results) = Some box →
  (0.10 <= best_conf (scan_results bundle results))%Q →
  crop_bbox image box 0.05 = Ok crop →
  _classify_freshness bundle crop rnd = Ok (fl, fc) →
  ∃ r, run_inference image bundle rnd = Ok r
       ∧ detected r = true
       ∧ confidence r
         = py_round_n (best_conf (scan_results bundle results) * 0.4 + fc * 0.6) 4
       ∧ ((0 <= best_conf (scan_results bundle results) <= 1)%Q →
          (0 <= fc <= 1)%Q → (0 <= confidence r <= 1)%Q).
Proof.
  intros Hcall Hbox Hdet Hcrop Hfresh. unfold run_inference. rewrite Hcall. cbn.
  rewrite Hbox. apply Qltb_false in Hdet. rewrite Hdet, Hcrop. cbn.
  rewrite Hfresh. cbn. eexists. split; [done|]. cbn. split; [done|]. split; [done|].
  intros Hd Hf. apply py_round_4_unit. lra.
Qed.

(** *** The heuristic estimator (C3) *)

Lemma py_round_2_between (lo hi : Z) (q : Q) :
  (lo # 100 <= q <= hi # 100)%Q → (lo # 100 <= py_round_n q 2 <= hi # 100)%Q.
Proof. rewrite !Qmake_Qdiv. apply (py_round_n_between lo hi q 2). Qed.

Lemma uniform_range (rnd : Q) :
  (0 <= rnd < 1)%Q → (0 <= uniform 0.0 0.20 rnd <= 0.20)%Q.
Proof. unfold uniform. lra. Qed.

(** C3: on a crop whose colour conversions succeed, the heuristic estimator
    reads the mean saturation and the mean value of the enhanced crop and
    applies its rules in order: saturation > 80 and 60 < value < 220 gives
    "fresh" with a confidence in [0.75, 0.95]; otherwise saturation > 40 gives
    "semi-fresh" with a confidence in [0.55, 0.75]; otherwise "spoiled" with a
    confidence in [0.60, 0.80]; the confidence is the base plus the uniform
    draw, rounded to 2 decimals. *)
Theorem heuristic_freshness_rules (crop : Image) (rnd : Q) (bgr enhanced hsv : Array) :
  pil_to_cv2 crop = Ok bgr →
  enhance_contrast bgr = Ok enhanced →
  cv2_cvtColor enhanced COLOR_BGR2HSV = Ok hsv →
  (0 <= rnd < 1)%Q →
  ∃ (label : string) (c : Q),
    _heuristic_freshness crop rnd = Ok (label, c)
    ∧ (∃ k : Z, c = (inject_Z k / inject_Z (10 ^ Z.of_nat 2))%Q)
    ∧ ((80 < np_mean_channel hsv 1 ∧ 60 < np_mean_channel hsv 2 < 220)%Q →
         label = "fresh"
         ∧ c = py_round_n (0.75 + uniform 0.0 0.20 rnd) 2
         ∧ (0.75 <= c <= 0.95)%Q)
    ∧ (¬ (80 < np_mean_channel hsv 1 ∧ 60 < np_mean_channel hsv 2 < 220)%Q →
         (40 < np_mean_channel hsv 1)%Q →
         label = "semi-fresh"
         ∧ c = py_round_n (0.55 + uniform 0.0 0.20 rnd) 2
         ∧ (0.55 <= c <= 0.75)%Q)
    ∧ (¬ (80 < np_mean_channel hsv 1 ∧ 60 < np_mean_channel hsv 2 < 220)%Q →
         ¬ (40 < np_mean_channel hsv 1)%Q →
         label = "spoiled"
         ∧ c = py_round_n (0.60 + uniform 0.0 0.20 rnd) 2
         ∧ (0.60 <= c <= 0.80)%Q).
Proof.
  intros Hbgr Henh Hhsv Hrnd. unfold _heuristic_freshness.
  rewrite Hbgr. cbn. rewrite Henh. cbn. rewrite Hhsv. cbn.
  pose proof (uniform_range rnd Hrnd) as Hu. unfold heuristic_score.
  generalize dependent (uniform 0.0 0.20 rnd). intros u Hu.
  generalize (np_mean_channel hsv 1) (np_mean_channel hsv 2). intros s v.
  pose proof (py_round_2_between 75 95 (0.75 + u)) as Hfresh.
  pose proof (py_round_2_between 55 75 (0.55 + u)) as Hsemi.
  pose proof (py_round_2_between 60 80 (0.60 + u)) as Hspoiled.
  specialize (Hfresh ltac:(lra)). specialize (Hsemi ltac:(lra)).
  specialize (Hspoiled ltac:(lra)).
  destruct (Qltb 80 s) eqn:Hs80; destruct (Qltb 60 v) eqn:Hv60;
    destruct (Qltb v 220) eqn:Hv220; destruct (Qltb 40 s) eqn:Hs40; cbn;
    rewrite ?Qltb_true, ?Qltb_false in *;
    eexists _, _; (split; [reflexivity|]); (split; [apply py_round_n_decimals|]);
    (split; [|split]); intros;
    try (exfalso; lra); try (exfalso; tauto);
    (split; [reflexivity|]); (split; [reflexivity|]); lra.
Qed.

End Pipeline.

(** *** The pipeline on the toy detector *)

Lemma faint_apple_survivors :
  spec_survivors (toy_bundle (Ok faint_apple) None) faint_apple
  = [ mkBox 47 0.05 (10, 20, 50, 60)%Q ].
Proof. vm_compute. reflexivity. Qed.

Lemma run_inference_not_detected_witness :
  run_inference toy_photo (toy_bundle (Ok faint_apple) None) (1 # 2)
  = Ok (mkResult "unknown" "unknown" 0.0 false None).
Proof.
  apply (run_inference_not_detected (H := toy_imaging) toy_photo
           (toy_bundle (Ok faint_apple) None) (1 # 2) faint_apple).
  - reflexivity.
  - intros b Hb. rewrite faint_apple_survivors in Hb.
    apply list_elem_of_singleton in Hb. subst b. reflexivity.
Defined.

Lemma run_inference_blends_witness :
  ∃ r, run_inference toy_photo (toy_bundle (Ok clear_apple) None) (1 # 2) = Ok r
       ∧ detected r = true
       ∧ confidence r = py_round_n (0.8 * 0.4 + 0.85 * 0.6) 4
       ∧ (0 <= confidence r <= 1)%Q.
Proof.
  destruct (run_inference_blends (H := toy_imaging) toy_photo
              (toy_bundle (Ok clear_apple) None) (1 # 2) clear_apple
              (10, 20, 50, 60)%Q (mkToyImage "RGB" (44, 44) 150 140) "fresh" 0.85)
    as (r & Hr & Hd & Hc & Hrange).
  - reflexivity.
  - reflexivity.
  - vm_compute. discriminate.
  - reflexivity.
  - reflexivity.
  - exists r. split; [exact Hr|]. split; [exact Hd|]. split; [exact Hc|].
    apply Hrange; vm_compute; split; discriminate.
Defined.

Lemma heuristic_freshness_rules_witness :
  ∃ (label : string) (c : Q),
    _heuristic_freshness toy_photo (1 # 2) = Ok (label, c)
    ∧ label = "fresh" ∧ (0.75 <= c <= 0.95)%Q.
Proof.
  destruct (heuristic_freshness_rules (H := toy_imaging) toy_photo (1 # 2)
              toy_photo toy_photo toy_photo)
    as (label & c & Hrun & _ & Hfresh & _ & _).
  - reflexivity.
  - reflexivity.
  - reflexivity.
  - vm_compute. split; [discriminate | reflexivity].
  - exists label, c. split; [exact Hrun|].
    destruct Hfresh as (Hl & _ & Hc); [|by split].
    vm_compute. repeat split.
Defined.

(** ** The loader *)

Section Loader.
Context `{Imaging}.
Implicit Types (st : LoaderState) (c : LoadCall) (b : ObjRef ModelBundle).

Lemma load_models_cached st b env yp fp ds :
  _bundle st = Some b → load_models env yp fp ds st = (Ok b, st).
Proof. intros Hb. unfold load_models. by rewrite Hb. Qed.

(** A call either fails and leaves the state alone, or succeeds and leaves
    the bundle it returns in the cache. *)
Lemma load_models_outcome st env yp fp ds :
  (∃ e, load_models env yp fp ds st = (Raise e, st) ∧ _bundle st = None)
  ∨ (∃ b st1, load_models env yp fp ds st = (Ok b, st1) ∧ _bundle st1 = Some b
       ∧ (_bundle st = None →
          obj_id b = next_id st ∧ st1 = mkLoader (S (next_id st)) (Some b))).
Proof.
  unfold load_models. destruct (_bundle st) as [b|] eqn:Hb.
  - right. exists b, st. by rewrite Hb.
  - destruct (_resolve_device env ds ≫= _) as [bd|e]; [right | left].
    + eexists _, _. split; [reflexivity|]. cbn. done.
    + by exists e.
Qed.

Lemma run_loads_cached (calls : list LoadCall) st b :
  _bundle st = Some b →
  run_loads calls st = (replicate (length calls) (Ok b), st).
Proof.
  intros Hb. induction calls as [|c calls IH]; [done|]. cbn.
  unfold call_load. rewrite (load_models_cached _ _ _ _ _ _ Hb). by rewrite IH.
Qed.

(** From an empty cache: the cache is still empty exactly when every call
    failed, and otherwise it holds a bundle that some call returned. *)
Lemma run_loads_from_empty (calls : list LoadCall) st :
  _bundle st = None →
  (_bundle (run_loads calls st).2 = None
   ∧ Forall (λ r, is_Ok r = false) (run_loads calls st).1)
  ∨ (∃ b, _bundle (run_loads calls st).2 = Some b
          ∧ Ok b ∈ (run_loads calls st).1
          ∧ ∀ b', Ok b' ∈ (run_loads calls st).1 → b' = b).
Proof.
  revert st. induction calls as [|c calls IH]; intros st Hst.
  - left. by split.
  - cbn. unfold call_load.
    destruct (load_models_outcome st (call_env c) (call_yolo_path c)
                (call_freshness_path c) (call_device_str c))
      as [(e & -> & _) | (b & st1 & -> & Hb1 & _)].
    + destruct (run_loads calls st) as [rs st2] eqn:Hrun.
      specialize (IH st Hst). rewrite Hrun in IH. cbn in *.
      destruct IH as [[Hnone Hall] | (b & Hsome & Hin & Huniq)]; [left | right].
      * split; [done|]. by constructor.
      * exists b. split; [done|]. split; [by apply list_elem_of_further|].
        intros b' [Heq | Hb']%elem_of_cons; [done | by apply Huniq].
    + rewrite (run_loads_cached calls st1 b Hb1). cbn. right.
      exists b. split; [done|]. split; [apply list_elem_of_here|].
      intros b' [[= ->] | Hb']%elem_of_cons; [done|].
      apply elem_of_replicate in Hb' as [[= ->] _]. done.
Qed.

(** C6: once a call of [load_models] has succeeded, the bundle it returned
    is cached (a new object when the cache was empty), and every later call,
    whatever its arguments and whatever the environment, returns that same
    object and leaves the loader state unchanged. *)
Theorem load_models_idempotent c st b st1 (later : list LoadCall) :
  call_load c st = (Ok b, st1) →
  _bundle st1 = Some b
  ∧ (_bundle st = None →
     obj_id b = next_id st ∧ st1 = mkLoader (S (next_id st)) (Some b))
  ∧ (∀ env yolo_path freshness_path device_str,
       load_models env yolo_path freshness_path device_str st1 = (Ok b, st1))
  ∧ run_loads later st1 = (replicate (length later) (Ok b), st1).
Proof.
  intros Hcall. unfold call_load in Hcall.
  destruct (load_models_outcome st (call_env c) (call_yolo_path c)
              (call_freshness_path c) (call_device_str c))
    as [(e & He & _) | (b' & st' & Hb' & Hcache & Hnew)]; [congruence|].
  rewrite Hb' in Hcall. injection Hcall as -> ->.
  split; [done|]. split; [done|]. split.
  - intros. by apply load_models_cached.
  - by apply run_loads_cached.
Qed.

(** C7: after any history of [load_models] calls from the initial state,
    [get_bundle] raises the not-loaded error exactly when no call has
    succeeded; when some call has succeeded it returns the bundle that call
    returned, and it raises nothing else. *)
Theorem get_bundle_fails_iff_not_loaded (calls : list LoadCall) :
  (get_bundle (run_loads calls loader_init).2 = Raise not_loaded_error
   ↔ Forall (λ r, is_Ok r = false) (run_loads calls loader_init).1)
  ∧ (∀ b, Ok b ∈ (run_loads calls loader_init).1 →
          get_bundle (run_loads calls loader_init).2 = Ok b)
  ∧ (∀ e, get_bundle (run_loads calls loader_init).2 = Raise e →
          e = not_loaded_error).
Proof.
  unfold get_bundle.
  destruct (run_loads_from_empty calls loader_init eq_refl)
    as [[-> Hall] | (b & -> & Hin & Huniq)].
  - split; [done|]. split; [|by intros e [= <-]].
    intros b Hb. rewrite Forall_forall in Hall. by specialize (Hall _ Hb).
  - split; [|split].
    + split; [done|]. intros Hall. rewrite Forall_forall in Hall.
      by specialize (Hall _ Hin).
    + intros b' Hb'. by rewrite (Huniq b' Hb').
    + done.
Qed.

End Loader.

Lemma load_models_idempotent_witness :
  _bundle (call_load startup_call loader_init).2
    = Some (mkRef 0%nat (toy_bundle (Ok clear_apple) None))
  ∧ run_loads [other_call; startup_call] (call_load startup_call loader_init).2
    = ([Ok (mkRef 0%nat (toy_bundle (Ok clear_apple) None));
        Ok (mkRef 0%nat (toy_bundle (Ok clear_apple) None))],
       (call_load startup_call loader_init).2).
Proof.
  destruct (load_models_idempotent (H := toy_imaging) startup_call loader_init
              (mkRef 0%nat (toy_bundle (Ok clear_apple) None))
              (call_load startup_call loader_init).2 [other_call; startup_call])
    as (Hcache & _ & _ & Hlater).
  - reflexivity.
  - split; [exact Hcache | exact Hlater].
Defined.

(** ** Decoding and the request handler *)

Section Router.
Context `{Imaging}.

(** C8: [bytes_to_pil] has two outcomes.  On bytes that Pillow opens and
    converts it returns the converted image, which is in mode RGB and has
    three bands; on all other bytes it raises [ValueError] (the decode
    error), with the message of the underlying failure. *)
Theorem bytes_to_pil_outcomes (image_bytes : list Byte.byte) :
  (decodable image_bytes →
     ∃ img, bytes_to_pil image_bytes = Ok img
            ∧ PIL_mode img = "RGB" ∧ bands (PIL_mode img) = 3%nat)
  ∧ (¬ decodable image_bytes →
     ∃ exc, bytes_to_pil image_bytes
            = Raise (PyExc ValueError ("Cannot decode image: " +:+ exn_str exc)))
  ∧ ((∃ img, bytes_to_pil image_bytes = Ok img ∧ bands (PIL_mode img) = 3%nat)
     ∨ (∃ msg, bytes_to_pil image_bytes = Raise (PyExc ValueError msg))).
Proof.
  unfold decodable, bytes_to_pil.
  destruct (PIL_open image_bytes) as [img0|e0] eqn:Hopen; cbn.
  - destruct (PIL_convert img0 "RGB") as [img|e1] eqn:Hconv.
    + pose proof (PIL_convert_mode _ _ _ Hconv) as Hmode.
      split; [|split].
      * intros _. exists img. by rewrite Hmode.
      * intros Hno. exfalso. apply Hno. by exists img0, img.
      * left. exists img. by rewrite Hmode.
    + split; [|split].
      * intros (i0 & i & [= <-] & Hc). congruence.
      * intros _. by exists e1.
      * right. by eexists.
  - split; [|split].
    + intros (i0 & i & [=] & _).
    + intros _. by exists e0.
    + right. by eexists.
Qed.

(** The pipeline does not catch what its model calls raise. *)
Lemma run_inference_propagates (image : Image) bundle (rnd : Q) (exc : exn) :
  model_call_fails image bundle exc → run_inference image bundle rnd = Raise exc.
Proof.
  unfold run_inference.
  intros [Hdet | (results & xy & crop & classifier & t & tensor & Hcall & Hbox
                  & Hconf & Hcrop & Hclf & Ht & Hto & Hpred)].
  - by rewrite Hdet.
  - rewrite Hcall. cbn. rewrite Hbox. apply Qltb_false in Hconf.
    rewrite Hconf, Hcrop. cbn. unfold _classify_freshness.
    rewrite Hclf, Ht. cbn. rewrite Hto. cbn. by rewrite Hpred.
Qed.

(** What [predict] does with a failure of [run_inference]. *)
Lemma predict_inference_failure (renv : RequestEnv) (file : UploadFile)
    (st : LoaderState) (pil_image : Image) (bundle : ObjRef ModelBundle) (exc : exn) :
  supported (content_type file) = true →
  len (file_bytes file) <= MAX_FILE_SIZE_BYTES →
  bytes_to_pil (file_bytes file) = Ok pil_image →
  get_bundle st = Ok bundle →
  run_inference pil_image (obj_val bundle) (random_value renv) = Raise exc →
  predict renv file st = if is_RuntimeError exc then Raise inference_failed else Raise exc.
Proof.
  intros Hct Hsize Hdec Hb Hrun. unfold predict. rewrite Hct. cbn.
  apply Z.ltb_ge in Hsize. rewrite Hsize. unfold decode_and_infer.
  rewrite Hdec, Hb. cbn. by rewrite Hrun.
Qed.

(** C9, as amended: a failure raised by the detector call or by the
    classifier's forward call leaves [run_inference] unchanged (the pipeline
    does not catch it); [predict] turns it into the 500 response with the
    generic message when it is a [RuntimeError], and lets a failure of any
    other class through unchanged. *)
Theorem predict_translates_RuntimeError (renv : RequestEnv) (file : UploadFile)
    (st : LoaderState) (pil_image : Image) (bundle : ObjRef ModelBundle) (exc : exn) :
  supported (content_type file) = true →
  len (file_bytes file) <= MAX_FILE_SIZE_BYTES →
  bytes_to_pil (file_bytes file) = Ok pil_image →
  get_bundle st = Ok bundle →
  model_call_fails pil_image (obj_val bundle) exc →
  run_inference pil_image (obj_val bundle) (random_value renv) = Raise exc
  ∧ (is_RuntimeError exc = true →
     predict renv file st
     = Raise (HTTPException 500 "Model inference failed. Please try again."))
  ∧ (is_RuntimeError exc = false → predict renv file st = Raise exc).
Proof.
  intros Hct Hsize Hdec Hb Hfail.
  pose proof (run_inference_propagates _ _ (random_value renv) _ Hfail) as Hrun.
  pose proof (predict_inference_failure renv file st _ _ _ Hct Hsize Hdec Hb Hrun) as Hp.
  split; [done|]. split; intros Hk; by rewrite Hk in Hp.
Qed.

(** After the content-type check, [predict] is the size check followed by
    the rest of the handler. *)
Lemma predict_supported (renv : RequestEnv) (file : UploadFile) (st : LoaderState) :
  supported (content_type file) = true →
  predict renv file st
  = if 10 * 1024 * 1024 <? len (file_bytes file)
    then Raise (HTTPException 422 (too_large_detail (len (file_bytes file))))
    else decode_and_infer renv (file_bytes file) st.
Proof. intros Hct. unfold predict. by rewrite Hct. Qed.

(** C10: for an upload of a supported content type, [predict] rejects with
    status 422 and the size in KB exactly when the upload is longer than
    10 * 1024 * 1024 bytes; an upload of at most that length, 10 MB itself
    included, goes on to decoding. *)
Theorem predict_size_check (renv : RequestEnv) (file : UploadFile) (st : LoaderState) :
  supported (content_type file) = true →
  (10 * 1024 * 1024 < len (file_bytes file) →
     predict renv file st
     = Raise (HTTPException 422
                ("File too large (" +:+ pretty (len (file_bytes file) `div` 1024)
                 +:+ " KB). Max 10 MB allowed.")))
  ∧ (len (file_bytes file) <= 10 * 1024 * 1024 →
     predict renv file st = decode_and_infer renv (file_bytes file) st).
Proof.
  intros Hct. rewrite (predict_supported renv file st Hct). split.
  - intros Hbig. apply Z.ltb_lt in Hbig. by rewrite Hbig.
  - intros Hsmall. apply Z.ltb_ge in Hsmall. by rewrite Hsmall.
Qed.

End Router.

(** *** The handler on the toy detector *)

Lemma supported_png : supported (Some "image/png") = true.
Proof. vm_compute. reflexivity. Qed.

Lemma supported_jpeg : supported (Some "image/jpeg") = true.
Proof. vm_compute. reflexivity. Qed.

Lemma predict_translates_RuntimeError_witness :
  run_inference (mkToyImage "RGB" (4, 1) 150 140)
    (toy_bundle (Raise (PyExc RuntimeError "CUDA error")) None) (1 # 2)
  = Raise (PyExc RuntimeError "CUDA error")
  ∧ predict toy_request toy_upload (toy_loaded (PyExc RuntimeError "CUDA error"))
    = Raise (HTTPException 500 "Model inference failed. Please try again.").
Proof.
  destruct (predict_translates_RuntimeError (H := toy_imaging) toy_request toy_upload
              (toy_loaded (PyExc RuntimeError "CUDA error"))
              (mkToyImage "RGB" (4, 1) 150 140)
              (mkRef 0%nat (toy_bundle (Raise (PyExc RuntimeError "CUDA error")) None))
              (PyExc RuntimeError "CUDA error"))
    as (Hrun & H500 & _).
  - exact supported_png.
  - vm_compute. discriminate.
  - reflexivity.
  - reflexivity.
  - left. reflexivity.
  - split; [exact Hrun | apply H500; reflexivity].
Defined.

(** C9, as stated, fails: a detector failure that is not a [RuntimeError]
    passes through [predict] as it is, not as the 500 response. *)
Lemma predict_leaks_other_failure :
  model_call_fails (mkToyImage "RGB" (4, 1) 150 140)
    (toy_bundle (Raise (PyExc (OtherException "TypeError") "bad source")) None)
    (PyExc (OtherException "TypeError") "bad source")
  ∧ bytes_to_pil (file_bytes toy_upload) = Ok (mkToyImage "RGB" (4, 1) 150 140)
  ∧ predict toy_request toy_upload
      (toy_loaded (PyExc (OtherException "TypeError") "bad source"))
    = Raise (PyExc (OtherException "TypeError") "bad source")
  ∧ predict toy_request toy_upload
      (toy_loaded (PyExc (OtherException "TypeError") "bad source"))
    ≠ Raise (HTTPException 500 "Model inference failed. Please try again.").
Proof.
  split; [by left|]. split; [reflexivity|].
  assert (Hp : predict toy_request toy_upload
                 (toy_loaded (PyExc (OtherException "TypeError") "bad source"))
               = Raise (PyExc (OtherException "TypeError") "bad source"))
    by (vm_compute; reflexivity).
  split; [exact Hp|]. rewrite Hp. discriminate.
Qed.

Lemma predict_size_check_witness :
  predict toy_request toy_upload loader_init
  = decode_and_infer toy_request (file_bytes toy_upload) loader_init.
Proof.
  apply (predict_size_check (H := toy_imaging) toy_request toy_upload loader_init).
  - exact supported_png.
  - vm_compute. discriminate.
Defined.

(** The two sides of the size limit.  Uploads of any given length exist:
    [len_replicate]. *)
Lemma len_replicate (n : Z) (x : Byte.byte) :
  0 <= n → len (replicate (Z.to_nat n) x) = n.
Proof. intros Hn. unfold len. rewrite length_replicate. by apply Z2Nat.id. Qed.

Example predict_accepts_exactly_10MB `{Imaging} (renv : RequestEnv) (st : LoaderState)
    (data : list Byte.byte) :
  len data = 10 * 1024 * 1024 →
  predict renv (mkUpload (Some "image/jpeg") data) st = decode_and_infer renv data st.
Proof.
  intros Hlen.
  rewrite (predict_supported renv (mkUpload (Some "image/jpeg") data) st supported_jpeg).
  cbn [file_bytes]. by rewrite Hlen.
Qed.

Example predict_rejects_10MB_plus_1 `{Imaging} (renv : RequestEnv) (st : LoaderState)
    (data : list Byte.byte) :
  len data = 10 * 1024 * 1024 + 1 →
  predict renv (mkUpload (Some "image/jpeg") data) st
  = Raise (HTTPException 422 "File too large (10240 KB). Max 10 MB allowed.").
Proof.
  intros Hlen.
  rewrite (predict_supported renv (mkUpload (Some "image/jpeg") data) st supported_jpeg).
  cbn [file_bytes]. by rewrite Hlen.
Qed.

Example unsupported_detail_text :
  unsupported_detail (Some "text/plain")
  = "Unsupported content type 'text/plain'. Accepted: image/bmp, image/jpeg, image/png, image/webp".
Proof. vm_compute. reflexivity. Qed.

Example predict_before_load :
  predict toy_request toy_upload loader_init
  = Raise (HTTPException 500 "Model inference failed. Please try again.").
Proof. vm_compute. reflexivity. Qed.

Example predict_clear_apple :
  predict toy_request toy_upload (call_load startup_call loader_init).2
  = Ok (mkResponse "apple" "fresh" (py_round_n (0.8 * 0.4 + 0.85 * 0.6) 4) true
          (py_round_n ((10 + 0.25 - 10) * 1000) 2)).
Proof. vm_compute. reflexivity. Qed.

Example get_bundle_before_and_after :
  get_bundle (run_loads [other_call] loader_init).2 = Raise not_loaded_error
  ∧ get_bundle (run_loads [other_call; startup_call; other_call] loader_init).2
    = Ok (mkRef 0%nat (toy_bundle (Ok clear_apple) None)).
Proof. split; reflexivity. Qed.

(** * Further properties of the code *)

(** ** crop_bbox on boxes in and out of shape *)

(** Rounding is monotone. *)
Lemma py_round_mono (a b : Q) : (a <= b)%Q → py_round a <= py_round b.
Proof.
  intros Hab. pose proof (Qfloor_resp_le _ _ Hab) as Hf.
  destruct (Z.eq_dec (Qfloor a) (Qfloor b)) as [Heq | Hne].
  - unfold py_round. rewrite Heq.
    destruct (a - inject_Z (Qfloor b) ?= 1 # 2)%Q eqn:Ha;
      destruct (b - inject_Z (Qfloor b) ?= 1 # 2)%Q eqn:Hb;
      destruct (Z.even (Qfloor b)); try lia; exfalso;
      first [apply Qeq_alt in Ha | apply Qlt_alt in Ha | apply Qgt_alt in Ha];
      first [apply Qeq_alt in Hb | apply Qlt_alt in Hb | apply Qgt_alt in Hb];
      lra.
  - destruct (py_round_cases a) as [-> | ->], (py_round_cases b) as [-> | ->]; lia.
Qed.

Lemma py_max_ge_r (a b : Q) : (b <= py_max a b)%Q.
Proof. unfold py_max. destruct (Qlt_le_dec a b); lra. Qed.

Lemma py_min_le_r (a b : Q) : (py_min a b <= b)%Q.
Proof. unfold py_min. destruct (Qlt_le_dec b a); lra. Qed.

(** X1: a box without width (x2 <= x1) or without height (y2 <= y1) never
    gives a valid crop, whatever the image size: the padding of such a box is
    zero or negative, and the clamping does not restore the order of the
    bounds. *)
Theorem crop_bbox_never_repairs_box (w h : Z) (x1 y1 x2 y2 : Q) :
  (x2 <= x1)%Q ∨ (y2 <= y1)%Q →
  ¬ crop_is_valid w h (x1, y1, x2, y2).
Proof.
  intros Hbad. unfold crop_is_valid, crop_bbox_rect, pixel_box, valid_crop.
  intros (_ & Hw & _ & _ & Hh & _).
  destruct Hbad as [Hx | Hy].
  - pose proof (py_max_ge_r 0 (x1 - (x2 - x1) * 0.05)) as Hlo.
    pose proof (py_min_le_r (inject_Z w) (x2 + (x2 - x1) * 0.05)) as Hhi.
    pose proof (py_round_mono (py_min (inject_Z w) (x2 + (x2 - x1) * 0.05))
                  (py_max 0 (x1 - (x2 - x1) * 0.05)) ltac:(lra)).
    lia.
  - pose proof (py_max_ge_r 0 (y1 - (y2 - y1) * 0.05)) as Hlo.
    pose proof (py_min_le_r (inject_Z h) (y2 + (y2 - y1) * 0.05)) as Hhi.
    pose proof (py_round_mono (py_min (inject_Z h) (y2 + (y2 - y1) * 0.05))
                  (py_max 0 (y1 - (y2 - y1) * 0.05)) ltac:(lra)).
    lia.
Qed.

Lemma crop_bbox_never_repairs_box_witness :
  ¬ crop_is_valid 640 480 (300, 100, 120, 200)%Q.
Proof.
  apply (crop_bbox_never_repairs_box 640 480 300 100 120 200).
  left. vm_compute. discriminate.
Defined.



(** ** What run_inference can return *)

Section PipelineResults.
Context `{Imaging}.
Implicit Types (bundle : ModelBundle) (m : Box).

(** The two ways [run_inference] returns: the not-detected result, or the
    blended result for the selected candidate. *)
Lemma run_inference_Ok_cases (image : Image) bundle (rnd : Q) (r : PredictionResult) :
  run_inference image bundle rnd = Ok r →
  r = not_detected
  ∨ ∃ results m crop fl fc,
      yolo_call (yolo bundle) image = Ok results
      ∧ spec_first_max (spec_survivors bundle results) = Some m
      ∧ (0.10 <= conf m)%Q
      ∧ crop_bbox image (xyxy m) 0.05 = Ok crop
      ∧ _classify_freshness bundle crop rnd = Ok (fl, fc)
      ∧ r = mkResult (replace_space (lower (class_name bundle m))) fl
              (py_round_n (conf m * 0.4 + fc * 0.6) 4) true (Some (xyxy m)).
Proof.
  unfold run_inference.
  destruct (yolo_call (yolo bundle) image) as [results|e] eqn:Hcall; [|done]. cbn.
  rewrite scan_results_spec.
  destruct (spec_first_max (spec_survivors bundle results)) as [m|] eqn:Hm;
    [|intros [= <-]; by left].
  destruct (Qltb 0.0 (conf m)); [|intros [= <-]; by left]. cbn.
  destruct (Qltb (conf m) 0.10) eqn:Hlow; [intros [= <-]; by left|].
  apply Qltb_false in Hlow.
  destruct (crop_bbox image (xyxy m) 0.05) as [crop|e] eqn:Hcrop; [|done]. cbn.
  destruct (_classify_freshness bundle crop rnd) as [[fl fc]|e] eqn:Hfresh; [|done].
  cbn. intros [= <-]. right. by exists results, m, crop, fl, fc.
Qed.

Lemma spec_first_max_survivor bundle (results : list Results) m :
  spec_first_max (spec_survivors bundle results) = Some m →
  m ∈ candidates results ∧ spec_is_food bundle m
  ∧ ∀ x, x ∈ candidates results → spec_is_food bundle x → (conf x <= conf m)%Q.
Proof.
  intros Hm. destruct (spec_first_max_is_first_max _ _ Hm) as (i & Hi & Hmax & _).
  apply list_elem_of_lookup_2 in Hi. unfold spec_survivors in *.
  apply list_elem_of_filter in Hi as [Hfood Hin]. split; [done|]. split; [done|].
  intros x Hx Hfx.
  assert (Hxs : x ∈ filter (spec_is_food bundle) (candidates results))
    by (by apply list_elem_of_filter).
  apply list_elem_of_lookup_1 in Hxs as [j Hj]. by apply (Hmax j).
Qed.

(** X3: whatever [run_inference] returns is either exactly the not-detected
    result, or a detected result that reports one of the detector's
    candidates: one that passes the food filter, has a confidence of at least
    0.10 and no food candidate above it; the reported box is that candidate's
    box as the detector gave it (not the padded crop), and the reported food
    is its lower-cased class name with underscores for spaces. *)
Theorem run_inference_reports_a_food_candidate (image : Image) bundle (rnd : Q)
    (r : PredictionResult) :
  run_inference image bundle rnd = Ok r →
  r = mkResult "unknown" "unknown" 0.0 false None
  ∨ (detected r = true
     ∧ ∃ results m,
         yolo_call (yolo bundle) image = Ok results
         ∧ m ∈ candidates results
         ∧ spec_is_food bundle m
         ∧ (0.10 <= conf m)%Q
         ∧ (∀ x, x ∈ candidates results → spec_is_food bundle x → (conf x <= conf m)%Q)
         ∧ bbox r = Some (xyxy m)
         ∧ food r = replace_space (lower (class_name bundle m))).
Proof.
  intros Hrun.
  destruct (run_inference_Ok_cases _ _ _ _ Hrun)
    as [-> | (results & m & crop & fl & fc & Hcall & Hm & Hconf & _ & _ & ->)];
    [by left | right].
  split; [done|]. exists results, m.
  destruct (spec_first_max_survivor _ _ _ Hm) as (Hin & Hfood & Hmax).
  by repeat split.
Qed.

(** X4: only the first element of the detector output counts, and within it
    only the boxes that pass the food filter: the loop ends in the same state
    when every other element and every non-food box is removed. *)
Theorem scan_results_ignores_non_food bundle (r0 : Results) (rest : list Results) :
  scan_results bundle (r0 :: rest)
  = scan_results bundle [mkResults (filter (spec_is_food bundle) (boxes r0))].
Proof.
  rewrite !scan_results_spec. unfold spec_survivors. cbn [candidates boxes].
  rewrite list_filter_filter.
  rewrite (list_filter_iff (λ x, spec_is_food bundle x ∧ spec_is_food bundle x)
             (spec_is_food bundle)); [done|].
  intros x. tauto.
Qed.

Lemma label_char_replace_lower (c : ascii) :
  label_char (if Ascii.eqb (ascii_lower c) " "%char then "_"%char else ascii_lower c) = true.
Proof. destruct c as [[] [] [] [] [] [] [] []]; reflexivity. Qed.

Lemma label_shape (s : string) : string_all label_char (replace_space (lower s)) = true.
Proof.
  induction s as [|c s IH]; [done|]. cbn [lower replace_space string_all].
  by rewrite label_char_replace_lower, IH.
Qed.

(** X5: the food label of every result has no space and no upper-case ASCII
    letter, whatever names the detector's vocabulary holds. *)
Theorem run_inference_food_label_shape (image : Image) bundle (rnd : Q)
    (r : PredictionResult) :
  run_inference image bundle rnd = Ok r →
  string_all label_char (food r) = true.
Proof.
  intros Hrun.
  destruct (run_inference_Ok_cases _ _ _ _ Hrun)
    as [-> | (results & m & crop & fl & fc & _ & _ & _ & _ & _ & ->)].
  - reflexivity.
  - apply label_shape.
Qed.

End PipelineResults.

Lemma run_inference_reports_a_food_candidate_witness :
  ∃ results m,
    Ok clear_apple = Ok results
    ∧ m ∈ candidates results
    ∧ spec_is_food (toy_bundle (Ok clear_apple) None) m
    ∧ (0.10 <= conf m)%Q
    ∧ (∀ x, x ∈ candidates results →
            spec_is_food (toy_bundle (Ok clear_apple) None) x → (conf x <= conf m)%Q)
    ∧ Some (10, 20, 50, 60)%Q = Some (xyxy m)
    ∧ "apple" = replace_space (lower (class_name (toy_bundle (Ok clear_apple) None) m)).
Proof.
  destruct (run_inference_reports_a_food_candidate (H := toy_imaging) toy_photo
              (toy_bundle (Ok clear_apple) None) (1 # 2)
              (mkResult "apple" "fresh" (py_round_n (0.8 * 0.4 + 0.85 * 0.6) 4) true
                 (Some (10, 20, 50, 60)%Q)))
    as [Hno | (_ & Hyes)].
  - vm_compute. reflexivity.
  - discriminate Hno.
  - exact Hyes.
Defined.

Lemma run_inference_food_label_shape_witness :
  run_inference toy_photo (toy_bundle (Ok hot_dog) None) (1 # 2)
  = Ok (mkResult "hot_dog" "fresh" (py_round_n (0.7 * 0.4 + 0.85 * 0.6) 4) true
          (Some (5, 5, 60, 40)%Q))
  ∧ string_all label_char "hot_dog" = true.
Proof.
  assert (Hrun : run_inference toy_photo (toy_bundle (Ok hot_dog) None) (1 # 2)
                 = Ok (mkResult "hot_dog" "fresh"
                         (py_round_n (0.7 * 0.4 + 0.85 * 0.6) 4) true
                         (Some (5, 5, 60, 40)%Q)))
    by (vm_compute; reflexivity).
  split; [exact Hrun|].
  exact (run_inference_food_label_shape (H := toy_imaging) _ _ _ _ Hrun).
Defined.

(** ** The two freshness estimators *)

Section Estimators.
Context `{Imaging}.
Implicit Types (bundle : ModelBundle).

Lemma heuristic_score_range (saturation value rnd : Q) :
  (0 <= rnd < 1)%Q →
  (heuristic_score saturation value rnd).1 ∈ FRESHNESS_LABELS
  ∧ (0.55 <= (heuristic_score saturation value rnd).2 <= 0.95)%Q.
Proof.
  intros Hrnd. pose proof (uniform_range rnd Hrnd) as Hu. unfold heuristic_score.
  generalize dependent (uniform 0.0 0.20 rnd). intros u Hu.
  pose proof (py_round_2_between 75 95 (0.75 + u) ltac:(lra)).
  pose proof (py_round_2_between 55 75 (0.55 + u) ltac:(lra)).
  pose proof (py_round_2_between 60 80 (0.60 + u) ltac:(lra)).
  unfold FRESHNESS_LABELS.
  destruct (Qltb 80 saturation && (Qltb 60 value && Qltb value 220));
    [|destruct (Qltb 40 saturation)]; cbn [fst snd];
    (split; [|lra]);
    repeat first [apply list_elem_of_here | apply list_elem_of_further].
Qed.

(** X6: whenever the heuristic estimator returns, its label is one of
    "fresh", "semi-fresh", "spoiled" and its confidence lies in [0.55, 0.95],
    whatever the colour statistics of the crop. *)
Theorem heuristic_freshness_label_and_range (crop : Image) (rnd : Q)
    (label : string) (c : Q) :
  (0 <= rnd < 1)%Q →
  _heuristic_freshness crop rnd = Ok (label, c) →
  label ∈ FRESHNESS_LABELS ∧ (0.55 <= c <= 0.95)%Q.
Proof.
  intros Hrnd. unfold _heuristic_freshness.
  destruct (pil_to_cv2 crop) as [bgr|e]; [|done]. cbn.
  destruct (enhance_contrast bgr) as [enhanced|e]; [|done]. cbn.
  destruct (cv2_cvtColor enhanced COLOR_BGR2HSV) as [hsv|e]; [|done]. cbn.
  intros [= Hscore].
  pose proof (heuristic_score_range (np_mean_channel hsv 1) (np_mean_channel hsv 2)
                rnd Hrnd) as Hr.
  by rewrite Hscore in Hr.
Qed.

Lemma py_getitem_in_range {A} (l : list A) (i : Z) :
  0 <= i < Z.of_nat (length l) →
  ∃ a, l !! Z.to_nat i = Some a ∧ py_getitem l i = Ok a.
Proof.
  intros Hi. unfold py_getitem.
  destruct (i <? 0) eqn:Hneg; [lia|].
  destruct ((i <? 0) || (Z.of_nat (length l) <=? i)) eqn:Hout; [lia|].
  destruct (l !! Z.to_nat i) as [a|] eqn:Ha; [by exists a|].
  apply lookup_ge_None in Ha. lia.
Qed.

Lemma py_getitem_negative {A} (l : list A) (i : Z) :
  - Z.of_nat (length l) <= i < 0 →
  ∃ a, l !! Z.to_nat (i + Z.of_nat (length l)) = Some a ∧ py_getitem l i = Ok a.
Proof.
  intros Hi. unfold py_getitem.
  destruct (i <? 0) eqn:Hneg; [|lia].
  destruct ((i + Z.of_nat (length l) <? 0)
            || (Z.of_nat (length l) <=? i + Z.of_nat (length l))) eqn:Hout; [lia|].
  destruct (l !! Z.to_nat (i + Z.of_nat (length l))) as [a|] eqn:Ha; [by exists a|].
  apply lookup_ge_None in Ha. lia.
Qed.

Lemma py_getitem_out_of_range {A} (l : list A) (i : Z) :
  i < - Z.of_nat (length l) ∨ Z.of_nat (length l) <= i →
  py_getitem l i = Raise (PyExc IndexError "list index out of range").
Proof.
  intros Hi. unfold py_getitem.
  destruct (i <? 0) eqn:Hneg.
  - destruct ((i + Z.of_nat (length l) <? 0)
              || (Z.of_nat (length l) <=? i + Z.of_nat (length l))) eqn:Hout; [done|lia].
  - destruct ((i <? 0) || (Z.of_nat (length l) <=? i)) eqn:Hout; [done|lia].
Qed.

(** X7: with a trained classifier whose forward pass answers class [idx]
    with confidence [cnf], the estimate is the label at position [idx] of the
    bundle's freshness labels and [cnf] rounded to 4 decimals; a negative
    [idx] counts from the end of the labels; an [idx] outside the labels
    raises [IndexError].  The random value plays no part. *)
Theorem classify_freshness_by_index bundle (crop : Image) (rnd : Q)
    (classifier : Classifier) (t tensor : Tensor) (idx : Z) (cnf : Q) :
  freshness_classifier bundle = Some classifier →
  to_freshness_tensor crop = Ok t →
  tensor_to t (device bundle) = Ok tensor →
  predict_module classifier tensor = Ok (idx, cnf) →
  (0 <= idx < Z.of_nat (length (freshness_labels bundle)) →
     ∃ label, freshness_labels bundle !! Z.to_nat idx = Some label
              ∧ _classify_freshness bundle crop rnd = Ok (label, py_round_n cnf 4))
  ∧ (- Z.of_nat (length (freshness_labels bundle)) <= idx < 0 →
     ∃ label,
       freshness_labels bundle
         !! Z.to_nat (idx + Z.of_nat (length (freshness_labels bundle))) = Some label
       ∧ _classify_freshness bundle crop rnd = Ok (label, py_round_n cnf 4))
  ∧ (idx < - Z.of_nat (length (freshness_labels bundle))
     ∨ Z.of_nat (length (freshness_labels bundle)) <= idx →
     _classify_freshness bundle crop rnd
     = Raise (PyExc IndexError "list index out of range")).
Proof.
  intros Hclf Ht Hto Hpred. unfold _classify_freshness.
  rewrite Hclf, Ht. cbn. rewrite Hto. cbn. rewrite Hpred. cbn.
  split; [|split]; intros Hidx.
  - destruct (py_getitem_in_range _ _ Hidx) as (label & Hl & ->). by exists label.
  - destruct (py_getitem_negative _ _ Hidx) as (label & Hl & ->). by exists label.
  - by rewrite (py_getitem_out_of_range _ _ Hidx).
Qed.

End Estimators.

Lemma heuristic_freshness_label_and_range_witness :
  "fresh" ∈ FRESHNESS_LABELS ∧ (0.55 <= 0.85 <= 0.95)%Q.
Proof.
  apply (heuristic_freshness_label_and_range (H := toy_imaging) toy_photo (1 # 2)).
  - vm_compute. split; [discriminate | reflexivity].
  - vm_compute. reflexivity.
Defined.

Lemma classify_freshness_by_index_witness :
  _classify_freshness toy_bundle_spoiled toy_photo (1 # 2)
    = Ok ("spoiled", py_round_n 0.912345 4)
  ∧ _classify_freshness toy_bundle_class7 toy_photo (1 # 2)
    = Raise (PyExc IndexError "list index out of range").
Proof.
  split.
  - pose proof (classify_freshness_by_index (H := toy_imaging) toy_bundle_spoiled
                  toy_photo (1 # 2) (Ok (2, 0.912345%Q)) () () 2 0.912345
                  eq_refl eq_refl eq_refl eq_refl) as (Hin & _ & _).
    destruct Hin as (label & Hl & Hrun);
      [vm_compute; split; [discriminate | reflexivity] |].
    injection Hl as <-. exact Hrun.
  - pose proof (classify_freshness_by_index (H := toy_imaging) toy_bundle_class7
                  toy_photo (1 # 2) (Ok (7, 0.912345%Q)) () () 7 0.912345
                  eq_refl eq_refl eq_refl eq_refl) as (_ & _ & Hout).
    apply Hout. right. vm_compute. discriminate.
Defined.

(** ** The heuristic estimator inside the pipeline and the handler *)

Section HeuristicMode.
Context `{Imaging}.
Implicit Types (bundle : ModelBundle).

Lemma py_round_4_between (lo hi : Z) (q : Q) :
  (lo # 10000 <= q <= hi # 10000)%Q →
  (lo # 10000 <= py_round_n q 4 <= hi # 10000)%Q.
Proof. rewrite !Qmake_Qdiv. apply (py_round_n_between lo hi q 4). Qed.

(** X8: without a trained classifier, and with a detector whose confidences
    do not exceed 1, the confidence of every result lies in [0, 1]: it is 0.0
    for the not-detected result and lies in [0.37, 0.97] for a detected one. *)
Theorem run_inference_heuristic_confidence (image : Image) bundle (rnd : Q)
    (r : PredictionResult) :
  freshness_classifier bundle = None →
  (0 <= rnd < 1)%Q →
  (∀ results, yolo_call (yolo bundle) image = Ok results →
     Forall (λ x, (conf x <= 1)%Q) (candidates results)) →
  run_inference image bundle rnd = Ok r →
  (0 <= confidence r <= 1)%Q
  ∧ (detected r = false → confidence r = 0.0%Q)
  ∧ (detected r = true → (0.37 <= confidence r <= 0.97)%Q).
Proof.
  intros Hnone Hrnd Hdet Hrun.
  destruct (run_inference_Ok_cases _ _ _ _ Hrun)
    as [-> | (results & m & crop & fl & fc & Hcall & Hm & Hconf & _ & Hfresh & ->)].
  - cbn. split; [lra|]. split; [done|]. intros [=].
  - unfold _classify_freshness in Hfresh. rewrite Hnone in Hfresh.
    assert (Hfc : (0.55 <= fc <= 0.95)%Q).
    { unfold _heuristic_freshness in Hfresh.
      destruct (pil_to_cv2 crop) as [bgr|e]; [|done]. cbn in Hfresh.
      destruct (enhance_contrast bgr) as [enhanced|e]; [|done]. cbn in Hfresh.
      destruct (cv2_cvtColor enhanced COLOR_BGR2HSV) as [hsv|e]; [|done].
      cbn in Hfresh. injection Hfresh as Hscore.
      pose proof (heuristic_score_range (np_mean_channel hsv 1)
                    (np_mean_channel hsv 2) rnd Hrnd) as [_ Hr].
      by rewrite Hscore in Hr. }
    destruct (spec_first_max_survivor _ _ _ Hm) as (Hin & _ & _).
    specialize (Hdet results Hcall). rewrite Forall_forall in Hdet.
    specialize (Hdet m Hin). cbn [confidence detected].
    pose proof (py_round_4_between 3700 9700 (conf m * 0.4 + fc * 0.6) ltac:(lra)).
    split; [lra|]. split; [intros [=] | intros _; lra].
Qed.

End HeuristicMode.

Lemma run_inference_heuristic_confidence_witness :
  (0 <= py_round_n (0.8 * 0.4 + 0.85 * 0.6) 4 <= 1)%Q
  ∧ (0.37 <= py_round_n (0.8 * 0.4 + 0.85 * 0.6) 4 <= 0.97)%Q.
Proof.
  destruct (run_inference_heuristic_confidence (H := toy_imaging) toy_photo
              (toy_bundle (Ok clear_apple) None) (1 # 2)
              (mkResult "apple" "fresh" (py_round_n (0.8 * 0.4 + 0.85 * 0.6) 4) true
                 (Some (10, 20, 50, 60)%Q)))
    as (Hunit & _ & Hdetected).
  - reflexivity.
  - vm_compute. split; [discriminate | reflexivity].
  - intros results [= <-]. unfold clear_apple, candidates. cbn [boxes].
    repeat constructor; vm_compute; discriminate.
  - vm_compute. reflexivity.
  - split; [exact Hunit | exact (Hdetected eq_refl)].
Defined.

(** ** The answers of the handler *)

Section Answers.
Context `{Imaging}.

Lemma bytes_to_pil_decodable (image_bytes : list Byte.byte) :
  decodable image_bytes → ∃ img, bytes_to_pil image_bytes = Ok img.
Proof.
  intros (img0 & img & Hopen & Hconv). exists img.
  unfold bytes_to_pil. rewrite Hopen. cbn. by rewrite Hconv.
Qed.

Lemma bytes_to_pil_not_decodable (image_bytes : list Byte.byte) :
  ¬ decodable image_bytes →
  ∃ exc, bytes_to_pil image_bytes
         = Raise (PyExc ValueError ("Cannot decode image: " +:+ exn_str exc)).
Proof.
  intros Hno. unfold bytes_to_pil.
  destruct (PIL_open image_bytes) as [img0|e0] eqn:Hopen; cbn; [|by exists e0].
  destruct (PIL_convert img0 "RGB") as [img|e1] eqn:Hconv; [|by exists e1].
  exfalso. apply Hno. by exists img0, img.
Qed.

Lemma predict_accepted (renv : RequestEnv) (file : UploadFile) (st : LoaderState) :
  supported (content_type file) = true →
  len (file_bytes file) <= MAX_FILE_SIZE_BYTES →
  predict renv file st = decode_and_infer renv (file_bytes file) st.
Proof.
  intros Hct Hsize. rewrite (predict_supported renv file st Hct).
  unfold MAX_FILE_SIZE_BYTES in Hsize. apply Z.ltb_ge in Hsize. by rewrite Hsize.
Qed.

(** X9: when the pipeline returns a result, the handler answers with its
    food, freshness, confidence and detected flag unchanged and with the
    elapsed time in milliseconds rounded to 2 decimals; the box is not part
    of the answer.  This holds when the confidence lies in [0, 1]; outside
    that range building the response raises a [ValueError] instead. *)
Theorem predict_answers_with_result (renv : RequestEnv) (file : UploadFile)
    (st : LoaderState) (pil_image : Image) (bundle : ObjRef ModelBundle)
    (r : PredictionResult) :
  supported (content_type file) = true →
  len (file_bytes file) <= MAX_FILE_SIZE_BYTES →
  bytes_to_pil (file_bytes file) = Ok pil_image →
  get_bundle st = Ok bundle →
  run_inference pil_image (obj_val bundle) (random_value renv) = Ok r →
  ((0 <= confidence r <= 1)%Q →
     predict renv file st
     = Ok (mkResponse (food r) (freshness r) (confidence r) (detected r)
             (py_round_n ((perf_counter_1 renv - perf_counter_0 renv) * 1000) 2)))
  ∧ ((confidence r < 0)%Q ∨ (1 < confidence r)%Q →
     ∃ msg, predict renv file st = Raise (PyExc ValueError msg)).
Proof.
  intros Hct Hsize Hdec Hb Hrun. rewrite (predict_accepted _ _ _ Hct Hsize).
  unfold decode_and_infer. rewrite Hdec, Hb. cbn. rewrite Hrun. cbn.
  unfold PredictionResponse_new. split.
  - intros [Hlo Hhi].
    assert (H0 : Qltb (confidence r) 0.0 = false) by (apply Qltb_false; lra).
    assert (H1 : Qltb 1.0 (confidence r) = false) by (apply Qltb_false; lra).
    by rewrite H0, H1.
  - intros [Hneg | Hbig].
    + assert (H0 : Qltb (confidence r) 0.0 = true) by (apply Qltb_true; lra).
      rewrite H0. by eexists.
    + assert (H1 : Qltb 1.0 (confidence r) = true) by (apply Qltb_true; lra).
      rewrite H1, orb_true_r. by eexists.
Qed.

(** X10: an upload of a supported type and an accepted size whose bytes
    Pillow cannot open and convert is answered with status 400 and the
    message "Cannot decode image: ..." carrying the text of the underlying
    failure, whether or not the models are loaded. *)
Theorem predict_undecodable_400 (renv : RequestEnv) (file : UploadFile)
    (st : LoaderState) :
  supported (content_type file) = true →
  len (file_bytes file) <= MAX_FILE_SIZE_BYTES →
  ¬ decodable (file_bytes file) →
  ∃ exc, predict renv file st
         = Raise (HTTPException 400 ("Cannot decode image: " +:+ exn_str exc)).
Proof.
  intros Hct Hsize Hno. rewrite (predict_accepted _ _ _ Hct Hsize).
  destruct (bytes_to_pil_not_decodable _ Hno) as [exc Hexc].
  exists exc. unfold decode_and_infer. by rewrite Hexc.
Qed.

(** X11: while no bundle is cached, every upload that passes the checks and
    decodes is answered with status 500 and the generic message: the
    not-loaded error of [get_bundle] is a [RuntimeError] and is translated
    like an inference failure. *)
Theorem predict_not_loaded_500 (renv : RequestEnv) (file : UploadFile)
    (st : LoaderState) :
  supported (content_type file) = true →
  len (file_bytes file) <= MAX_FILE_SIZE_BYTES →
  decodable (file_bytes file) →
  _bundle st = None →
  predict renv file st
  = Raise (HTTPException 500 "Model inference failed. Please try again.").
Proof.
  intros Hct Hsize Hdec Hnone. rewrite (predict_accepted _ _ _ Hct Hsize).
  destruct (bytes_to_pil_decodable _ Hdec) as [img Himg].
  unfold decode_and_infer, get_bundle. by rewrite Himg, Hnone.
Qed.

(** X12: an upload whose content type is not one of the four supported ones
    (or is missing) is answered with status 400 before anything else is
    looked at: its size, its bytes and the state of the loader play no part. *)
Theorem predict_unsupported_type_first (renv renv' : RequestEnv)
    (ct : option string) (data data' : list Byte.byte) (st st' : LoaderState) :
  supported ct = false →
  predict renv (mkUpload ct data) st
    = Raise (HTTPException 400 (unsupported_detail ct))
  ∧ predict renv (mkUpload ct data) st = predict renv' (mkUpload ct data') st'.
Proof.
  intros Hct. unfold predict. cbn [content_type]. by rewrite Hct.
Qed.

End Answers.

Lemma toy_upload_decodable : decodable (file_bytes toy_upload).
Proof. by exists (mkToyImage "L" (4, 1) 150 140), (mkToyImage "RGB" (4, 1) 150 140). Qed.

Lemma empty_upload_not_decodable : ¬ decodable (H := toy_imaging) [].
Proof. intros (img0 & img & [=] & _). Qed.

Lemma predict_answers_with_result_witness :
  predict toy_request toy_upload (call_load startup_call loader_init).2
  = Ok (mkResponse "apple" "fresh" (py_round_n (0.8 * 0.4 + 0.85 * 0.6) 4) true
          (py_round_n ((10 + 0.25 - 10) * 1000) 2)).
Proof.
  pose proof (predict_answers_with_result (H := toy_imaging) toy_request toy_upload
                (call_load startup_call loader_init).2
                (mkToyImage "RGB" (4, 1) 150 140)
                (mkRef 0%nat (toy_bundle (Ok clear_apple) None))
                (mkResult "apple" "fresh" (py_round_n (0.8 * 0.4 + 0.85 * 0.6) 4) true
                   (Some (10, 20, 50, 60)%Q))
                supported_png) as Hp.
  destruct Hp as [Hok _].
  - vm_compute. discriminate.
  - reflexivity.
  - reflexivity.
  - vm_compute. reflexivity.
  - apply Hok. vm_compute. split; discriminate.
Defined.

Lemma predict_undecodable_400_witness :
  ∃ exc, predict toy_request (mkUpload (Some "image/png") []) loader_init
         = Raise (HTTPException 400 ("Cannot decode image: " +:+ exn_str exc)).
Proof.
  apply (predict_undecodable_400 (H := toy_imaging) toy_request
           (mkUpload (Some "image/png") []) loader_init).
  - exact supported_png.
  - vm_compute. discriminate.
  - exact empty_upload_not_decodable.
Defined.

Lemma predict_not_loaded_500_witness :
  predict toy_request toy_upload loader_init
  = Raise (HTTPException 500 "Model inference failed. Please try again.").
Proof.
  apply (predict_not_loaded_500 (H := toy_imaging) toy_request toy_upload loader_init).
  - exact supported_png.
  - vm_compute. discriminate.
  - exact toy_upload_decodable.
  - reflexivity.
Defined.

Lemma predict_unsupported_type_first_witness :
  predict toy_request (mkUpload (Some "text/plain") []) loader_init
    = Raise (HTTPException 400 (unsupported_detail (Some "text/plain")))
  ∧ predict toy_request (mkUpload (Some "text/plain") []) loader_init
    = predict toy_request (mkUpload (Some "text/plain") (file_bytes toy_upload))
        (call_load startup_call loader_init).2.
Proof.
  apply (predict_unsupported_type_first (H := toy_imaging)).
  vm_compute. reflexivity.
Defined.

(** ** Loading: failures, fallbacks and the single bundle *)

Section LoaderFallbacks.
Context `{Imaging}.
Implicit Types (st : LoaderState) (env : LoadEnv).


(** X14: [_load_freshness_classifier] falls back to no classifier when the
    weights file does not exist, when [torch.load] fails, and when the
    checkpoint dictionary has no "state_dict" key; and a classifier it does
    return comes from an existing file that [torch.load] read, and has been
    put in evaluation mode. *)
Theorem load_freshness_classifier_fallbacks env (weights_path : string)
    (device : Device) :
  (path_exists env weights_path = false →
     _load_freshness_classifier env weights_path device = None)
  ∧ (∀ exc, torch_load env (str_Path weights_path) device = Raise exc →
     _load_freshness_classifier env weights_path device = None)
  ∧ (∀ d, torch_load env (str_Path weights_path) device = Ok (LoadedDict d) →
     d !! "state_dict" = None →
     _load_freshness_classifier env weights_path device = None)
  ∧ (∀ net, _load_freshness_classifier env weights_path device = Some net →
     path_exists env weights_path = true
     ∧ (∃ loaded, torch_load env (str_Path weights_path) device = Ok loaded)
     ∧ ∃ m, net = module_eval m).
Proof.
  unfold _load_freshness_classifier.
  destruct (path_exists env weights_path); cbn [negb].
  - split; [done|].
    destruct (torch_load env (str_Path weights_path) device) as [[d|m]|e]; cbn.
    + split; [done|]. split.
      * intros d' [= <-] Hkey. rewrite Hkey.
        by destruct FreshnessNet_new.
      * intros net.
        destruct FreshnessNet_new as [n0|?]; cbn; [|done].
        destruct (d !! "state_dict") as [sd|]; cbn; [|done].
        destruct (load_state_dict n0 sd) as [n1|?]; cbn; [|done].
        destruct (module_to n1 device) as [n2|?]; cbn; [|done].
        intros [= <-]. split; [done|]. split; [by eexists | by exists n2].
    + split; [done|]. split; [done|]. intros net.
      destruct (module_to m device) as [m2|?]; cbn; [|done].
      intros [= <-]. split; [done|]. split; [by eexists | by exists m2].
    + split; [done|]. split; [done|]. done.
  - split; [done|]. split; [done|]. split; [done|]. done.
Qed.

(** X15: asking for "cuda" on a machine without CUDA loads exactly what
    asking for "cpu" loads. *)
Theorem load_models_cuda_falls_back_to_cpu env (yolo_path freshness_path : string) st :
  cuda_is_available env = false →
  load_models env yolo_path freshness_path "cuda" st
  = load_models env yolo_path freshness_path "cpu" st.
Proof.
  intros Hcuda. unfold load_models, _resolve_device. rewrite Hcuda.
  rewrite (bool_decide_eq_true_2 ("cuda" = "cuda")) by done.
  rewrite (bool_decide_eq_false_2 ("cpu" = "cuda")) by done.
  reflexivity.
Qed.

(** The counter of bundle objects moves only when a bundle is cached. *)
Lemma run_loads_counter (calls : list LoadCall) st :
  _bundle st = None →
  (_bundle (run_loads calls st).2 = None
   ∧ next_id (run_loads calls st).2 = next_id st)
  ∨ (∃ b, _bundle (run_loads calls st).2 = Some b
          ∧ obj_id b = next_id st
          ∧ next_id (run_loads calls st).2 = S (next_id st)).
Proof.
  revert st. induction calls as [|c calls IH]; intros st Hst; [by left|].
  cbn. unfold call_load.
  destruct (load_models_outcome st (call_env c) (call_yolo_path c)
              (call_freshness_path c) (call_device_str c))
    as [(e & -> & _) | (b & st1 & -> & Hb1 & Hnew)].
  - destruct (run_loads calls st) as [rs st2] eqn:Hrun.
    specialize (IH st Hst). by rewrite Hrun in IH.
  - rewrite (run_loads_cached calls st1 b Hb1). cbn.
    destruct (Hnew Hst) as [Hid ->]. right. by exists b.
Qed.

(** X16: over every history of [load_models] calls from the initial state,
    at most one bundle object is ever created: every call that returns,
    returns the object of identity 0, and the cache holds that object from
    the first success on. *)
Theorem run_loads_single_bundle (calls : list LoadCall) :
  (∀ b, Ok b ∈ (run_loads calls loader_init).1 →
        obj_id b = 0%nat ∧ _bundle (run_loads calls loader_init).2 = Some b)
  ∧ (next_id (run_loads calls loader_init).2 <= 1)%nat
  ∧ (next_id (run_loads calls loader_init).2 = 1%nat
     ↔ is_Some (_bundle (run_loads calls loader_init).2)).
Proof.
  destruct (run_loads_counter calls loader_init eq_refl)
    as [[Hnone Hid] | (b & Hb & Hid & Hnext)];
    destruct (run_loads_from_empty calls loader_init eq_refl)
      as [[Hnone' Hall] | (b' & Hb' & Hin & Huniq)]; try congruence.
  - split; [|split].
    + intros b Hin. rewrite Forall_forall in Hall. by specialize (Hall _ Hin).
    + rewrite Hid. cbn. lia.
    + rewrite Hid, Hnone. cbn. split; [lia | by intros [? ?]].
  - assert (b' = b) as -> by congruence.
    split; [|split].
    + intros b0 Hb0. rewrite (Huniq b0 Hb0). by split.
    + rewrite Hnext. cbn. lia.
    + rewrite Hnext, Hb. cbn. split; [by eexists | done].
Qed.

(** X17: once the start-up of the application has loaded the models, every
    later history of [load_models] calls leaves the loader as it is, and
    [get_bundle] keeps returning the start-up bundle. *)
Theorem lifespan_bundle_stays (settings : Settings) env st
    (b : ObjRef ModelBundle) (st1 : LoaderState) (later : list LoadCall) :
  lifespan_startup settings env st = (Ok b, st1) →
  (run_loads later st1).2 = st1
  ∧ get_bundle (run_loads later st1).2 = Ok b
  ∧ Forall (λ r, r = Ok b) (run_loads later st1).1.
Proof.
  intros Hstart. unfold lifespan_startup in Hstart.
  destruct (load_models_outcome st env (yolo_weights_path settings)
              (freshness_weights_path settings) (settings_device settings))
    as [(e & He & _) | (b' & st' & Hb' & Hcache & _)]; [congruence|].
  rewrite Hb' in Hstart. injection Hstart as -> ->.
  rewrite (run_loads_cached later st1 b Hcache). cbn.
  split; [done|]. split; [unfold get_bundle; by rewrite Hcache|].
  apply Forall_forall. by intros r [-> _]%elem_of_replicate.
Qed.

End LoaderFallbacks.


Lemma load_models_cuda_falls_back_to_cpu_witness :
  load_models toy_env "weights/yolov8n.pt" "weights/freshness_classifier.pt" "cuda"
    loader_init
  = load_models toy_env "weights/yolov8n.pt" "weights/freshness_classifier.pt" "cpu"
      loader_init.
Proof.
  apply (load_models_cuda_falls_back_to_cpu (H := toy_imaging) toy_env).
  reflexivity.
Defined.

Lemma lifespan_bundle_stays_witness :
  (run_loads [other_call; startup_call]
     (lifespan_startup default_settings toy_env loader_init).2).2
  = (lifespan_startup default_settings toy_env loader_init).2
  ∧ get_bundle
      (run_loads [other_call; startup_call]
         (lifespan_startup default_settings toy_env loader_init).2).2
    = Ok (mkRef 0%nat (toy_bundle (Ok clear_apple) None))
  ∧ Forall (λ r, r = Ok (mkRef 0%nat (toy_bundle (Ok clear_apple) None)))
      (run_loads [other_call; startup_call]
         (lifespan_startup default_settings toy_env loader_init).2).1.
Proof.
  apply (lifespan_bundle_stays (H := toy_imaging) default_settings toy_env loader_init).
  reflexivity.
Defined.

(** ** The list of allowed origins *)

Lemma split_nonempty (sep : ascii) (s : string) : split sep s ≠ [].
Proof.
  destruct s as [|c s]; [done|]. cbn.
  destruct (Ascii.eqb c sep); [done|]. by destruct (split sep s).
Qed.

Lemma split_length (sep : ascii) (s : string) :
  length (split sep s) = S (count_char sep s).
Proof.
  induction s as [|c s IH]; [done|]. cbn [split count_char].
  destruct (Ascii.eqb c sep); cbn [length]; [by rewrite IH|].
  pose proof (split_nonempty sep s).
  destruct (split sep s) as [|piece pieces]; [done|]. exact IH.
Qed.

Lemma split_pieces_no_sep (sep : ascii) (s : string) :
  Forall (λ piece, count_char sep piece = 0%nat) (split sep s).
Proof.
  induction s as [|c s IH]; [by repeat constructor|]. cbn [split].
  destruct (Ascii.eqb c sep) eqn:Hc; [by constructor|].
  destruct (split sep s) as [|piece pieces]; [constructor; [|done]; cbn; by rewrite Hc|].
  apply Forall_cons in IH as [Hp Hps]. constructor; [|done].
  cbn. by rewrite Hc, Hp.
Qed.

Lemma count_char_lstrip (c : ascii) (s : string) :
  (count_char c (lstrip s) <= count_char c s)%nat.
Proof.
  induction s as [|c' s IH]; [done|]. cbn [lstrip].
  destruct (is_space c'); [cbn; lia | done].
Qed.

Lemma count_char_rstrip (c : ascii) (s : string) :
  (count_char c (rstrip s) <= count_char c s)%nat.
Proof.
  induction s as [|c' s IH]; [done|]. cbn [rstrip].
  destruct (rstrip s) as [|c2 r] eqn:Hr.
  - destruct (is_space c'); cbn in *; lia.
  - cbn in *. lia.
Qed.

Lemma lstrip_first (s : string) (c : ascii) :
  first_char (lstrip s) = Some c → is_space c = false.
Proof.
  induction s as [|c' s IH]; [done|]. cbn [lstrip].
  destruct (is_space c') eqn:Hc'; [done|]. by intros [= <-].
Qed.

Lemma rstrip_first (s : string) (c : ascii) :
  (∀ c', first_char s = Some c' → is_space c' = false) →
  first_char (rstrip s) = Some c → is_space c = false.
Proof.
  destruct s as [|c' s]; [done|]. intros Hfirst. cbn [rstrip].
  specialize (Hfirst c' eq_refl).
  destruct (rstrip s); [rewrite Hfirst|]; by intros [= <-].
Qed.

Lemma rstrip_last (s : string) (c : ascii) :
  last_char (rstrip s) = Some c → is_space c = false.
Proof.
  revert c. induction s as [|c' s IH]; intros c; [done|]. cbn [rstrip].
  destruct (rstrip s) as [|c2 r] eqn:Hr.
  - destruct (is_space c') eqn:Hc'; [done|]. by intros [= <-].
  - intros Hlast. by apply IH.
Qed.

(** X18: the list of allowed origins is never empty and has one entry more
    than the setting has commas; no entry contains a comma, and no entry
    starts or ends with white space.  An empty setting gives one empty
    entry. *)
Theorem origins_list_shape (settings : Settings) :
  origins_list settings ≠ []
  ∧ length (origins_list settings) = S (count_char ","%char (allowed_origins settings))
  ∧ Forall (λ o, count_char ","%char o = 0%nat ∧ is_stripped o) (origins_list settings)
  ∧ (allowed_origins settings = EmptyString → origins_list settings = [EmptyString]).
Proof.
  unfold origins_list. split; [|split; [|split]].
  - pose proof (split_nonempty ","%char (allowed_origins settings)).
    by destruct (split _ _).
  - by rewrite length_fmap, split_length.
  - apply Forall_fmap. eapply Forall_impl; [apply split_pieces_no_sep|].
    intros piece Hpiece. unfold compose. cbv beta in *. split; [|split].
    + pose proof (count_char_rstrip ","%char (lstrip piece)).
      pose proof (count_char_lstrip ","%char piece). unfold strip. lia.
    + intros c. apply rstrip_first. apply lstrip_first.
    + intros c. apply rstrip_last.
  - by intros ->.
Qed.

Lemma split_no_sep (sep : ascii) (x : string) :
  count_char sep x = 0%nat → split sep x = [x].
Proof.
  induction x as [|c x IH]; [done|]. cbn [count_char split].
  destruct (Ascii.eqb c sep); [done|]. intros Hx. by rewrite (IH Hx).
Qed.

Lemma split_app_sep (sep : ascii) (x rest : string) :
  count_char sep x = 0%nat →
  split sep (x +:+ String sep rest) = x :: split sep rest.
Proof.
  induction x as [|c x IH].
  - intros _. change (EmptyString +:+ String sep rest) with (String sep rest).
    cbn [split]. by rewrite Ascii.eqb_refl.
  - change (String c x +:+ String sep rest) with (String c (x +:+ String sep rest)).
    cbn [count_char split].
    destruct (Ascii.eqb c sep); [done|]. intros Hx. by rewrite (IH Hx).
Qed.

Lemma split_join (ps : list string) :
  ps ≠ [] →
  Forall (λ p, count_char ","%char p = 0%nat) ps →
  split ","%char (join "," ps) = ps.
Proof.
  induction ps as [|p ps IH]; [done|]. intros _ Hps.
  apply Forall_cons in Hps as [Hp Hps].
  destruct ps as [|q ps]; [by apply split_no_sep|].
  change (join "," (p :: q :: ps)) with (p +:+ String ","%char (join "," (q :: ps))).
  rewrite (split_app_sep _ _ _ Hp). by rewrite IH.
Qed.

Lemma strip_stripped (s : string) : is_stripped s → strip s = s.
Proof.
  intros [Hfirst Hlast]. unfold strip.
  assert (Hl : lstrip s = s).
  { destruct s as [|c s]; [done|]. cbn. by rewrite (Hfirst c eq_refl). }
  rewrite Hl. clear Hl Hfirst. induction s as [|c s IH]; [done|]. cbn [rstrip].
  destruct s as [|c2 s].
  - cbn. by rewrite (Hlast c eq_refl).
  - rewrite IH; [done|]. intros c' Hc'. by apply Hlast.
Qed.

(** X19: splitting undoes joining.  When the setting is a non-empty list of
    pieces joined with commas and no piece contains a comma, the list of
    allowed origins is the list of the stripped pieces, in the same order; it
    is the list of pieces itself when they carry no white space at their
    ends. *)
Theorem origins_list_of_joined (settings : Settings) (pieces : list string) :
  pieces ≠ [] →
  Forall (λ p, count_char ","%char p = 0%nat) pieces →
  allowed_origins settings = join "," pieces →
  origins_list settings = strip <$> pieces
  ∧ (Forall is_stripped pieces → origins_list settings = pieces).
Proof.
  intros Hne Hpieces Hjoin. unfold origins_list. rewrite Hjoin.
  rewrite (split_join pieces Hne Hpieces). split; [done|].
  intros Hstripped. clear Hne Hpieces Hjoin.
  induction Hstripped as [|p ps Hp _ IH]; [done|].
  cbn. by rewrite (strip_stripped p Hp), IH.
Qed.

Lemma origins_list_of_joined_witness :
  origins_list two_origins_settings
  = ["http://localhost:3000"; "https://app.example.com"].
Proof.
  destruct (origins_list_of_joined two_origins_settings
              ["http://localhost:3000"; " https://app.example.com "])
    as [Hlist _].
  - done.
  - repeat constructor.
  - reflexivity.
  - exact Hlist.
Defined.
